(** * drug-app: the database Compactor and Fetcher scripts

    A shallow embedding of [scripts/compact_database.py] and
    [scripts/download_databases.py].

    Python values are dynamically typed, so the record trimming code is
    modelled over one type of values; a method call on a value of the wrong
    class and a membership test on an unhashable value raise, and the
    functions live in an exception monad.  The two entry points thread a
    world (files, standard output, network) through that monad. *)

From Stdlib Require Import String Ascii ZArith List Bool Lia.
From stdpp Require Import gmap strings.
Import ListNotations.

Set Warnings "-register-all".

Local Open Scope string_scope.
Local Open Scope Z_scope.
Local Open Scope list_scope.

(** ** Python values, as the streaming parser delivers them *)

(** JSON objects become [dict]s (insertion ordered, string keys), arrays
    [list]s, integers [int]s and every other number a [Decimal] (sign and
    digits [m], exponent [e]). *)
Inductive value : Type :=
| VNone
| VBool (b : bool)
| VInt (n : Z)
| VDecimal (m e : Z)
| VStr (s : string)
| VList (l : list value)
| VDict (d : list (string * value)).

Inductive exn : Type :=
| AttributeError
| TypeError
| StopIteration
| FileNotFoundError
| JSONError
| ConnectionError
| HTTPError (status : Z)
| OSError.

Inductive result (A : Type) : Type :=
| Ok (a : A)
| Raise (e : exn).
Arguments Ok {A} a.
Arguments Raise {A} e.

Definition rbind {A B} (r : result A) (k : A -> result B) : result B :=
  match r with
  | Ok a => k a
  | Raise e => Raise e
  end.

Declare Scope py_scope.
Delimit Scope py_scope with py.
Notation "'let?' x ':=' r 'in' k" := (rbind r (fun x => k))
  (at level 10, x name, r at level 100, k at level 200) : py_scope.
Local Open Scope py_scope.

(** [isinstance(v, dict)], [isinstance(v, str)] *)
Definition is_dict (v : value) : bool :=
  match v with VDict _ => true | _ => false end.

Definition is_str (v : value) : bool :=
  match v with VStr _ => true | _ => false end.

Definition is_none (v : value) : bool :=
  match v with VNone => true | _ => false end.

(** Truth value of an object, as [if], [or] and [not] test it. *)
Definition truthy (v : value) : bool :=
  match v with
  | VNone => false
  | VBool b => b
  | VInt n => negb (n =? 0)
  | VDecimal m _ => negb (m =? 0)
  | VStr s => negb (String.eqb s "")
  | VList l => match l with [] => false | _ => true end
  | VDict d => match d with [] => false | _ => true end
  end.

(** Lookup in a dict: the entry of the key, if there is one. *)
Fixpoint dict_lookup (d : list (string * value)) (k : string) : option value :=
  match d with
  | [] => None
  | (k', v) :: d' => if String.eqb k' k then Some v else dict_lookup d' k
  end.

(** [d[k] = v]: an existing key keeps its place, a new one goes last. *)
Fixpoint dict_set (d : list (string * value)) (k : string) (v : value)
  : list (string * value) :=
  match d with
  | [] => [(k, v)]
  | (k', v') :: d' =>
      if String.eqb k' k then (k', v) :: d' else (k', v') :: dict_set d' k v
  end.

Definition dict_keys (d : list (string * value)) : list string := map fst d.

(** [obj.get(k, default)]: only a dict has the method. *)
Definition py_get_default (obj : value) (k : string) (default : value) : result value :=
  match obj with
  | VDict d => Ok (match dict_lookup d k with Some v => v | None => default end)
  | _ => Raise AttributeError
  end.

(** [obj.get(k)] *)
Definition py_get (obj : value) (k : string) : result value :=
  py_get_default obj k VNone.

(** [v in s] for a set [s] of strings: the value is hashed first, and lists
    and dicts are unhashable; a hashable value that is not a string equals
    no member. *)
Definition py_in_set (v : value) (s : list string) : result bool :=
  match v with
  | VStr x => Ok (existsb (String.eqb x) s)
  | VList _ | VDict _ => Raise TypeError
  | _ => Ok false
  end.

(** [for x in l: body], where each round appends to one list. *)
Fixpoint py_for {A} (l : list value) (body : value -> result (list A))
  : result (list A) :=
  match l with
  | [] => Ok []
  | x :: l' =>
      let? ys := body x in
      let? rest := py_for l' body in
      Ok (ys ++ rest)
  end.

(** [{k: obj.get(k) for k in keys if obj.get(k) is not None}] *)
Fixpoint pick_present (obj : value) (keys : list string)
  : result (list (string * value)) :=
  match keys with
  | [] => Ok []
  | k :: keys' =>
      let? probe := py_get obj k in
      if is_none probe then pick_present obj keys'
      else
        let? v := py_get obj k in
        let? rest := pick_present obj keys' in
        Ok ((k, v) :: rest)
  end.

(** ** compact_database.py: trimming one record *)

Definition ESSENTIAL_PROPERTY_KINDS : list string :=
  ["Melting Point"; "Water Solubility"; "Molecular Weight"; "logP"; "pKa"].

Definition dosing_keep_keys : list string :=
  ["has_dosing"; "source"; "frequency"; "times_per_day"; "routes"; "instructions"].

Definition openfda_keep_keys : list string :=
  ["frequency"; "times_per_day"; "times_per_day_range"; "route"; "routes";
   "instructions"].

Definition simplify_dosing (dosing : value) : result value :=
  if negb (is_dict dosing) then Ok (VDict [])
  else
    let? simplified := pick_present dosing dosing_keep_keys in
    let? openfda_full := py_get dosing "openfda_full" in
    if is_dict openfda_full then
      let? inner := pick_present openfda_full openfda_keep_keys in
      Ok (VDict (dict_set simplified "openfda_full" (VDict inner)))
    else Ok (VDict simplified).

(** The dict literal [{k1: e.get(k1), k2: e.get(k2), k3: e.get(k3)}]. *)
Definition reduce3 (entry : value) (k1 k2 k3 : string) : result value :=
  let? v1 := py_get entry k1 in
  let? v2 := py_get entry k2 in
  let? v3 := py_get entry k3 in
  Ok (VDict [(k1, v1); (k2, v2); (k3, v3)]).

Definition simplify_interactions (interactions : value) : result value :=
  match interactions with
  | VList l =>
      let? simplified :=
        py_for l (fun interaction =>
          if negb (is_dict interaction) then Ok []
          else
            let? r := reduce3 interaction "drugbank_id" "name" "description" in
            Ok [r]) in
      Ok (VList simplified)
  | _ => Ok (VList [])
  end.

Definition simplify_dosages (dosages : value) : result value :=
  match dosages with
  | VList l =>
      let? simplified :=
        py_for l (fun dosage =>
          if negb (is_dict dosage) then Ok []
          else
            let? r := reduce3 dosage "form" "route" "strength" in
            Ok [r]) in
      Ok (VList simplified)
  | _ => Ok (VList [])
  end.

Definition simplify_properties (properties : value) : result value :=
  match properties with
  | VList l =>
      let? simplified :=
        py_for l (fun prop =>
          if negb (is_dict prop) then Ok []
          else
            let? kind := py_get prop "kind" in
            let? essential := py_in_set kind ESSENTIAL_PROPERTY_KINDS in
            if essential then
              let? r := reduce3 prop "kind" "value" "unit" in
              Ok [r]
            else Ok []) in
      Ok (VList simplified)
  | _ => Ok (VList [])
  end.

(** [a or b], with [b] evaluated only when [a] is false. *)
Definition py_or (a : value) (b : result value) : result value :=
  if truthy a then Ok a else b.

Definition simplify_categories (categories : value) : result value :=
  match categories with
  | VList l =>
      let? simplified :=
        py_for l (fun category =>
          if is_dict category then
            let? c := py_get category "category" in
            let? label :=
              (let? cm := py_or c (py_get category "mesh_id") in
               py_or cm (py_get category "name")) in
            if truthy label then Ok [label] else Ok []
          else if is_str category then Ok [category]
          else Ok []) in
      Ok (VList simplified)
  | _ => Ok (VList [])
  end.

Definition trim_drug (drug : value) : result value :=
  let? name := py_get drug "name" in
  let? ids1 := py_get_default drug "drugbank_ids" (VDict []) in
  let? primary := py_get ids1 "primary" in
  let? ids2 := py_get_default drug "drugbank_ids" (VDict []) in
  let? secondary := py_get_default ids2 "secondary" (VList []) in
  let? description := py_get drug "description" in
  let? type := py_get drug "type" in
  let? groups := py_get_default drug "groups" (VList []) in
  let? categories0 := py_get drug "categories" in
  let? categories := simplify_categories categories0 in
  let? mechanism_of_action := py_get drug "mechanism_of_action" in
  let? half_life := py_get drug "half_life" in
  let? absorption := py_get drug "absorption" in
  let? metabolism := py_get drug "metabolism" in
  let? food_interactions := py_get_default drug "food_interactions" (VList []) in
  let? drug_interactions0 := py_get drug "drug_interactions" in
  let? drug_interactions := simplify_interactions drug_interactions0 in
  let? experimental_properties0 := py_get drug "experimental_properties" in
  let? experimental_properties := simplify_properties experimental_properties0 in
  let? dosages0 := py_get drug "dosages" in
  let? dosages := simplify_dosages dosages0 in
  let? dosing_info0 := py_get drug "dosing_info" in
  let? dosing_info := simplify_dosing dosing_info0 in
  Ok (VDict
        [("name", name);
         ("drugbank_ids", VDict [("primary", primary); ("secondary", secondary)]);
         ("description", description);
         ("type", type);
         ("groups", groups);
         ("categories", categories);
         ("mechanism_of_action", mechanism_of_action);
         ("half_life", half_life);
         ("absorption", absorption);
         ("metabolism", metabolism);
         ("food_interactions", food_interactions);
         ("drug_interactions", drug_interactions);
         ("experimental_properties", experimental_properties);
         ("dosages", dosages);
         ("dosing_info", dosing_info)]).

(** ** Scripts as programs over a world

    An entry point reads and writes files, prints and talks to the network:
    a computation takes the world and returns a value or an exception
    together with the world it leaves behind (what was written before an
    exception stays written). *)

Definition io (W A : Type) : Type := W -> result A * W.

Definition ret {W A} (a : A) : io W A := fun w => (Ok a, w).

Definition raise {W A} (e : exn) : io W A := fun w => (Raise e, w).

Definition bind {W A B} (c : io W A) (k : A -> io W B) : io W B :=
  fun w =>
    match c w with
    | (Ok a, w') => k a w'
    | (Raise e, w') => (Raise e, w')
    end.

(** A pure computation that may raise, run inside a script. *)
Definition lift {W A} (r : result A) : io W A := fun w => (r, w).

(** [try: c  except Exception as exc: handler(exc)] *)
Definition try_except {W A} (c : io W A) (handler : exn -> io W A) : io W A :=
  fun w =>
    match c w with
    | (Ok a, w') => (Ok a, w')
    | (Raise e, w') => handler e w'
    end.

Notation "'let!' x ':=' c 'in' k" := (bind c (fun x => k))
  (at level 10, x name, c at level 100, k at level 200) : py_scope.
Notation "c ';;' k" := (bind c (fun _ => k))
  (at level 100, k at level 200, right associativity) : py_scope.

(** What an iterator over outside data yields: items, and then either the
    end or a failure of the one who feeds it (the parser on malformed
    text, the connection while a body streams). *)
Inductive items (A : Type) : Type :=
| Done
| Broken
| Item (a : A) (rest : items A).
Arguments Done {A}.
Arguments Broken {A}.
Arguments Item {A} a rest.

Fixpoint items_of_list {A} (l : list A) : items A :=
  match l with
  | [] => Done
  | a :: l' => Item a (items_of_list l')
  end.

(** ** compact_database.py: the entry point *)

Module Compactor.

(** The source file, as [ijson.items] reads it at the two prefixes the
    script asks for. *)
Record json_file : Type := {
  at_metadata : items value;
  at_drugs_item : items value
}.

(** The file holding a well-formed JSON document: the value under the
    top-level key [metadata], and the elements of the array under
    [drugs]. *)
Definition json_file_of (doc : value) : json_file :=
  {| at_metadata :=
       match doc with
       | VDict d =>
           match dict_lookup d "metadata" with
           | Some m => Item m Done
           | None => Done
           end
       | _ => Done
       end;
     at_drugs_item :=
       match doc with
       | VDict d =>
           match dict_lookup d "drugs" with
           | Some (VList l) => items_of_list l
           | _ => Done
           end
       | _ => Done
       end |}.

(** What the script writes to the target, call by call: the fixed texts
    [{"metadata":], [,"drugs":[], [,] and []}], and
    [json.dump(v, out, default=_json_default, separators=(",", ":"))]. *)
Inductive chunk : Type :=
| OpenMetadata
| OpenDrugs
| Comma
| CloseDoc
| Dump (v : value).

(** The lines printed (the sizes they quote are left out). *)
Inductive message : Type :=
| AlreadyExists
| Reading
| Wrote.

(** The two fixed paths [SOURCE] and [TARGET], each absent or holding a
    file, and standard output. *)
Record world : Type := {
  SOURCE : option json_file;
  TARGET : option (list chunk);
  stdout : list message
}.

Definition print (m : message) : io world unit :=
  fun w => (Ok tt, {| SOURCE := SOURCE w; TARGET := TARGET w;
                      stdout := stdout w ++ [m] |}).

Definition source_exists : io world bool :=
  fun w => (Ok (match SOURCE w with Some _ => true | None => false end), w).

Definition target_exists : io world bool :=
  fun w => (Ok (match TARGET w with Some _ => true | None => false end), w).

(** [SOURCE.open("rb")] *)
Definition open_source : io world json_file :=
  fun w => match SOURCE w with
           | Some f => (Ok f, w)
           | None => (Raise FileNotFoundError, w)
           end.

(** [TARGET.open("w")]: the file is created, or emptied. *)
Definition open_target : io world unit :=
  fun w => (Ok tt, {| SOURCE := SOURCE w; TARGET := Some []; stdout := stdout w |}).

Definition write (c : chunk) : io world unit :=
  fun w => (Ok tt, {| SOURCE := SOURCE w;
                      TARGET := Some (match TARGET w with
                                      | Some t => t ++ [c]
                                      | None => [c]
                                      end);
                      stdout := stdout w |}).

(** [next(it)] on what [ijson.items] yields: a parse error when the
    text is malformed before the first item. *)
Definition next {A} (it : items A) : io world A :=
  match it with
  | Item a _ => ret a
  | Done => raise StopIteration
  | Broken => raise JSONError
  end.

(** The loop over [ijson.items(f, "drugs.item")]. *)
Fixpoint write_drugs (drugs : items value) (first : bool) : io world unit :=
  match drugs with
  | Done => ret tt
  | Broken => raise JSONError
  | Item drug rest =>
      let! trimmed := lift (trim_drug drug) in
      (if negb first then write Comma else ret tt) ;;
      write (Dump trimmed) ;;
      write_drugs rest false
  end.

Definition main : io world unit :=
  let! present := source_exists in
  if negb present then raise FileNotFoundError
  else
    let! done := target_exists in
    if done then print AlreadyExists
    else
      print Reading ;;
      let! f := open_source in
      let! metadata := next (at_metadata f) in
      open_target ;;
      write OpenMetadata ;;
      write (Dump metadata) ;;
      write OpenDrugs ;;
      let! f := open_source in
      write_drugs (at_drugs_item f) true ;;
      write CloseDoc ;;
      print Wrote.

End Compactor.

(** ** download_databases.py *)

Module Fetcher.

Definition COMPACT_DB : string := "comprehensive_drug_database_compact.json".
Definition FULL_DB : string := "comprehensive_drug_database.json".

Definition DEFAULT_COMPACT_URL : string :=
  "https://drive.google.com/file/d/12o_cdObA01lxXJMY8LjCqlPVrXF56bZF/view?usp=drive_link".

(** *** The two URL patterns

    Both regular expressions have the shape [lead([^stop]+)trail]: a
    literal text, one capturing group of one or more characters other
    than [stop], and a literal text. *)
Record pattern : Type := {
  lead : string;
  stop : ascii;
  trail : string
}.

Definition patterns : list pattern :=
  [ {| lead := "https://drive.google.com/file/d/"; stop := "/"%char;
       trail := "/" |};
    {| lead := "id="; stop := "&"%char; trail := "" |} ].

(** The text after the literal [p], when [s] starts with it. *)
Fixpoint strip_prefix (p s : string) : option string :=
  match p with
  | EmptyString => Some s
  | String a p' =>
      match s with
      | EmptyString => None
      | String b s' => if Ascii.eqb a b then strip_prefix p' s' else None
      end
  end.

(** The greedy group: the longest non-empty run of characters other than
    [stop] at the start of [s] that [trail] follows; a shorter run is
    tried when the longer ones fail. *)
Fixpoint group_then (stop : ascii) (trail : string) (s : string) : option string :=
  match s with
  | EmptyString => None
  | String a s' =>
      if Ascii.eqb a stop then None
      else
        match group_then stop trail s' with
        | Some g => Some (String a g)
        | None =>
            if String.prefix trail s' then Some (String a EmptyString) else None
        end
  end.

(** A match that starts at the first character of [s]; the result is
    group 1. *)
Definition match_at (p : pattern) (s : string) : option string :=
  match strip_prefix (lead p) s with
  | Some rest => group_then (stop p) (trail p) rest
  | None => None
  end.

(** [re.search(p, s)]: the leftmost match. *)
Fixpoint re_search (p : pattern) (s : string) : option string :=
  match match_at p s with
  | Some g => Some g
  | None =>
      match s with
      | EmptyString => None
      | String _ s' => re_search p s'
      end
  end.

Fixpoint first_match (ps : list pattern) (url : string) : option string :=
  match ps with
  | [] => None
  | p :: ps' =>
      match re_search p url with
      | Some g => Some g
      | None => first_match ps' url
      end
  end.

Definition extract_drive_file_id (url : string) : option string :=
  first_match patterns url.

Definition build_drive_download_url (file_id : string) : string :=
  String.append "https://drive.google.com/uc?export=download&id=" file_id.

(** *** The world of the Fetcher *)

Record request : Type := {
  req_url : string;
  req_params : list (string * string)
}.

(** A response: its status, the cookies it sets, in the order the cookie
    jar lists them, and the chunks [iter_content] yields. *)
Record response : Type := {
  status : Z;
  cookies : list (string * string);
  content : items string
}.

Inductive reply : Type :=
| Unreachable
| Reply (r : response).

(** The lines printed, by their text's variable parts (sizes left out). *)
Inductive message : Type :=
| Downloaded (target : string)
| Failed (url target : string) (exc : exn)
| AlreadyPresent (target : string)
| NoUrl (target : string)
| NoDatabase.

(** Files by path, the environment, the requests sent so far and the
    answer the network gives to the next one, the paths that can be
    created and opened for writing, and standard output. *)
Record world : Type := {
  files : gmap string string;
  environ : gmap string string;
  requests : list request;
  network : list request -> request -> reply;
  writable : string -> bool;
  stdout : list message
}.

Definition with_files (fs : gmap string string) (w : world) : world :=
  {| files := fs; environ := environ w; requests := requests w;
     network := network w; writable := writable w; stdout := stdout w |}.

Definition print (m : message) : io world unit :=
  fun w => (Ok tt, {| files := files w; environ := environ w;
                      requests := requests w; network := network w;
                      writable := writable w; stdout := stdout w ++ [m] |}).

(** [target.exists()] *)
Definition exists_ (target : string) : io world bool :=
  fun w => (Ok (match files w !! target with Some _ => true | None => false end), w).

(** [os.getenv(name)] *)
Definition getenv (name : string) : io world (option string) :=
  fun w => (Ok (environ w !! name), w).

(** [session.get(url, params=params, stream=True)]: the request goes out,
    and either a response comes back or the call raises. *)
Definition session_get (url : string) (params : list (string * string))
  : io world response :=
  fun w =>
    let rq := {| req_url := url; req_params := params |} in
    let w' := {| files := files w; environ := environ w;
                 requests := requests w ++ [rq]; network := network w;
                 writable := writable w; stdout := stdout w |} in
    match network w (requests w) rq with
    | Reply r => (Ok r, w')
    | Unreachable => (Raise ConnectionError, w')
    end.

(** [response.raise_for_status()] *)
Definition raise_for_status (r : response) : io world unit :=
  if (400 <=? status r) && (status r <? 600) then raise (HTTPError (status r))
  else ret tt.

(** [target.parent.mkdir(parents=True, exist_ok=True)] and
    [open(target, "wb")]: the file is created, or emptied. *)
Definition open_wb (target : string) : io world unit :=
  fun w =>
    if writable w target then (Ok tt, with_files (<[target := ""]> (files w)) w)
    else (Raise OSError, w).

(** [f.write(chunk)] *)
Definition write (target : string) (chunk : string) : io world unit :=
  fun w =>
    let old := match files w !! target with Some c => c | None => "" end in
    (Ok tt, with_files (<[target := String.append old chunk]> (files w)) w).

(** The loop over [response.iter_content(32 * 1024)]. *)
Fixpoint write_chunks (target : string) (chunks : items string) : io world unit :=
  match chunks with
  | Done => ret tt
  | Broken => raise ConnectionError
  | Item chunk rest =>
      (if negb (String.eqb chunk "") then write target chunk else ret tt) ;;
      write_chunks target rest
  end.

(** The loop over [response.cookies.items()]: the value of the first
    cookie whose key starts with the marker. *)
Fixpoint find_token (cs : list (string * string)) : option string :=
  match cs with
  | [] => None
  | (key, value) :: cs' =>
      if String.prefix "download_warning" key then Some value
      else find_token cs'
  end.

(** Truth value of an optional string: [None] and the empty string are
    false. *)
Definition truthy_opt (o : option string) : bool :=
  match o with
  | Some s => negb (String.eqb s "")
  | None => false
  end.

Definition download_url_of (url : string) : string :=
  let file_id := extract_drive_file_id url in
  match file_id with
  | Some id => if truthy_opt file_id then build_drive_download_url id else url
  | None => url
  end.

(** Lines 51 to 60: the response the download reads from. *)
Definition get_response (download_url : string) : io world response :=
  let! response := session_get download_url [] in
  let token := find_token (cookies response) in
  match token with
  | Some t =>
      if truthy_opt token then session_get download_url [("confirm", t)]
      else ret response
  | None => ret response
  end.

(** The body of the [try] block of [download_file]. *)
Definition download_body (url target : string) : io world bool :=
  let download_url := download_url_of url in
  let! response := get_response download_url in
  raise_for_status response ;;
  open_wb target ;;
  write_chunks target (content response) ;;
  print (Downloaded target) ;;
  ret true.

Definition download_file (url target : string) : io world bool :=
  try_except (download_body url target)
             (fun exc => print (Failed url target exc) ;; ret false).

Definition ensure_file (target : string) (url : option string) : io world unit :=
  let! present := exists_ target in
  if present then print (AlreadyPresent target)
  else
    match url with
    | Some u =>
        if negb (truthy_opt url) then print (NoUrl target)
        else let! _ := download_file u target in ret tt
    | None => print (NoUrl target)
    end.

Definition main : io world unit :=
  let! compact_env := getenv "COMPACT_DATABASE_URL" in
  let compact_url :=
    match compact_env with Some u => u | None => DEFAULT_COMPACT_URL end in
  let! full_url := getenv "DATABASE_URL" in
  ensure_file COMPACT_DB (Some compact_url) ;;
  ensure_file FULL_DB full_url ;;
  let! compact_present := exists_ COMPACT_DB in
  let! full_present := exists_ FULL_DB in
  if negb compact_present && negb full_present then print NoDatabase
  else ret tt.

End Fetcher.

(** * Properties of the record trimming *)

(** ** What the trimming functions compute, as plain functions *)

(** [d.get(k)] and [d.get(k, default)] on a dict. *)
Definition field_or (d : list (string * value)) (k : string) (default : value) : value :=
  match dict_lookup d k with Some v => v | None => default end.

Definition field (d : list (string * value)) (k : string) : value :=
  field_or d k VNone.

Definition reduced3 (d : list (string * value)) (k1 k2 k3 : string) : value :=
  VDict [(k1, field d k1); (k2, field d k2); (k3, field d k3)].

(** The entries of [keys] that [d] has with a value other than [None]. *)
Definition present (d : list (string * value)) (keys : list string)
  : list (string * value) :=
  flat_map (fun k => if is_none (field d k) then [] else [(k, field d k)]) keys.

Definition is_list (v : value) : bool :=
  match v with VList _ => true | _ => false end.

(** The entries of a list value; a value that is not a list has none. *)
Definition entries (v : value) : list value :=
  match v with VList l => l | _ => [] end.

(** The first non-empty value among the entries of [keys] in [d]. *)
Fixpoint first_nonempty (d : list (string * value)) (keys : list string)
  : option value :=
  match keys with
  | [] => None
  | k :: keys' =>
      if truthy (field d k) then Some (field d k) else first_nonempty d keys'
  end.

(** What one entry of [categories] contributes: a plain string itself, a
    mapping the first non-empty value among its [category], [mesh_id] and
    [name], anything else nothing. *)
Definition category_labels (c : value) : list value :=
  match c with
  | VStr s => [VStr s]
  | VDict d =>
      match first_nonempty d ["category"; "mesh_id"; "name"] with
      | Some label => [label]
      | None => []
      end
  | _ => []
  end.

Definition interaction_entry (x : value) : list value :=
  match x with
  | VDict d => [reduced3 d "drugbank_id" "name" "description"]
  | _ => []
  end.

Definition dosage_entry (x : value) : list value :=
  match x with
  | VDict d => [reduced3 d "form" "route" "strength"]
  | _ => []
  end.

Definition dosing_of (v : value) : value :=
  match v with
  | VDict d =>
      match field d "openfda_full" with
      | VDict o =>
          VDict (dict_set (present d dosing_keep_keys) "openfda_full"
                          (VDict (present o openfda_keep_keys)))
      | _ => VDict (present d dosing_keep_keys)
      end
  | _ => VDict []
  end.

(** An entry of [experimental_properties] is kept when it is a mapping
    whose [kind] is one of the allowed kinds. *)
Definition essential (x : value) : bool :=
  match x with
  | VDict d =>
      match field d "kind" with
      | VStr k => existsb (String.eqb k) ESSENTIAL_PROPERTY_KINDS
      | _ => false
      end
  | _ => false
  end.

Definition property_entry (x : value) : list value :=
  match x with
  | VDict d => if essential x then [reduced3 d "kind" "value" "unit"] else []
  | _ => []
  end.

(** The [kind] of a mapping entry can be hashed: it is no list and no
    mapping. *)
Definition kind_hashable (x : value) : bool :=
  match x with
  | VDict d =>
      match field d "kind" with
      | VList _ | VDict _ => false
      | _ => true
      end
  | _ => true
  end.

(** The record [trim_drug] builds from the drug [d], given the mapping
    [ids] under [drugbank_ids] and the trimmed properties [props]. *)
Definition trimmed (d ids : list (string * value)) (props : value) : value :=
  VDict
    [("name", field d "name");
     ("drugbank_ids",
      VDict [("primary", field ids "primary");
             ("secondary", field_or ids "secondary" (VList []))]);
     ("description", field d "description");
     ("type", field d "type");
     ("groups", field_or d "groups" (VList []));
     ("categories", VList (flat_map category_labels (entries (field d "categories"))));
     ("mechanism_of_action", field d "mechanism_of_action");
     ("half_life", field d "half_life");
     ("absorption", field d "absorption");
     ("metabolism", field d "metabolism");
     ("food_interactions", field_or d "food_interactions" (VList []));
     ("drug_interactions",
      VList (flat_map interaction_entry (entries (field d "drug_interactions"))));
     ("experimental_properties", props);
     ("dosages", VList (flat_map dosage_entry (entries (field d "dosages"))));
     ("dosing_info", dosing_of (field d "dosing_info"))].

(** The fifteen keys of a trimmed record, in the order of the literal. *)
Definition trimmed_keys : list string :=
  ["name"; "drugbank_ids"; "description"; "type"; "groups"; "categories";
   "mechanism_of_action"; "half_life"; "absorption"; "metabolism";
   "food_interactions"; "drug_interactions"; "experimental_properties";
   "dosages"; "dosing_info"].

(** The drug has a [drugbank_ids] that is absent or a mapping, and no entry
    of its [experimental_properties] has a list or a mapping as [kind]. *)
Definition drug_shaped (d : list (string * value)) : bool :=
  is_dict (field_or d "drugbank_ids" (VDict []))
  && forallb kind_hashable (entries (field d "experimental_properties")).

(** One entry of a list reduced to the three keys [k1], [k2], [k3]. *)
Definition reduce_entry (k1 k2 k3 : string) (x : value) : value :=
  match x with
  | VDict d => reduced3 d k1 k2 k3
  | _ => x
  end.

(** The retained fields copied with [drug.get(k)], and those that default
    to an empty sequence when missing. *)
Definition copied_fields : list string :=
  ["name"; "description"; "type"; "mechanism_of_action"; "half_life";
   "absorption"; "metabolism"].

Definition sequence_fields : list string :=
  ["groups"; "categories"; "food_interactions"; "drug_interactions";
   "experimental_properties"; "dosages"].

(** [trim_drug] returns on the record. *)
Definition trims (drug : value) : bool :=
  match trim_drug drug with Ok _ => true | Raise _ => false end.

(** The stream of drugs is read to its end and every record trims. *)
Fixpoint drugs_ok (drugs : items value) : bool :=
  match drugs with
  | Done => true
  | Broken => false
  | Item drug rest => trims drug && drugs_ok rest
  end.

(** The source yields a [metadata] item. *)
Definition has_metadata (f : Compactor.json_file) : bool :=
  match Compactor.at_metadata f with Item _ _ => true | _ => false end.

Definition is_some {A} (o : option A) : bool :=
  match o with Some _ => true | None => false end.

(** A source holding the document [{"metadata": {"version": 5}, "drugs":
    [{"name": "Aspirin"}]}], and no target. *)
Definition sample_world : Compactor.world :=
  {| Compactor.SOURCE :=
       Some (Compactor.json_file_of
               (VDict [("metadata", VDict [("version", VInt 5)]);
                       ("drugs", VList [VDict [("name", VStr "Aspirin")]])]));
     Compactor.TARGET := None;
     Compactor.stdout := [] |}.

(** A network that answers every request with status 200, the cookies
    [cs] and an empty body; no files, nothing sent yet. *)
Definition quiet_world (cs : list (string * string)) : Fetcher.world :=
  {| Fetcher.files := ∅;
     Fetcher.environ := ∅;
     Fetcher.requests := [];
     Fetcher.network := fun _ _ =>
       Fetcher.Reply {| Fetcher.status := 200; Fetcher.cookies := cs;
                        Fetcher.content := Done |};
     Fetcher.writable := fun _ => true;
     Fetcher.stdout := [] |}.

(** A network that answers every request with status 404. *)
Definition failing_world : Fetcher.world :=
  {| Fetcher.files := ∅;
     Fetcher.environ := ∅;
     Fetcher.requests := [];
     Fetcher.network := fun _ _ =>
       Fetcher.Reply {| Fetcher.status := 404; Fetcher.cookies := [];
                        Fetcher.content := Done |};
     Fetcher.writable := fun _ => true;
     Fetcher.stdout := [] |}.

(** The entry of [k] in a dict built from the keys [keys] of [d] that have
    a value other than [None]. *)
Definition kept_in (d : list (string * value)) (keys : list string) (k : string)
  : option value :=
  if existsb (String.eqb k) keys && negb (is_none (field d k))
  then Some (field d k) else None.

(** Whether [trim_drug] retains the top-level key. *)
Definition retained (k : string) : bool := existsb (String.eqb k) trimmed_keys.

(** The fields that [trim_drug] copies as they are when the source has
    them. *)
Definition verbatim_fields : list string :=
  copied_fields ++ ["groups"; "food_interactions"].

(** The three keys a category mapping is asked for. *)
Definition category_keys : list string := ["category"; "mesh_id"; "name"].

(** The chunks the loop of [main] writes for the trimmed records: each
    record dumped, a comma before every one but the first. *)
Fixpoint dump_records (first : bool) (records : list value)
  : list Compactor.chunk :=
  match records with
  | [] => []
  | t :: rest =>
      (if first then [] else [Compactor.Comma])
        ++ Compactor.Dump t :: dump_records false rest
  end.

(** The records the loop trims before the stream ends, breaks, or a
    record fails to trim. *)
Fixpoint trimmed_records (drugs : items value) : list value :=
  match drugs with
  | Item drug rest =>
      match trim_drug drug with
      | Ok t => t :: trimmed_records rest
      | Raise _ => []
      end
  | _ => []
  end.

(** The items an iterator yields before it ends or breaks. *)
Fixpoint items_list {A} (it : items A) : list A :=
  match it with
  | Item a rest => a :: items_list rest
  | _ => []
  end.

(** The string has no occurrence of the character. *)
Fixpoint no_char (c : ascii) (s : string) : bool :=
  match s with
  | EmptyString => true
  | String a s' => negb (Ascii.eqb a c) && no_char c s'
  end.

(** The iterator reaches its end without breaking. *)
Fixpoint complete {A} (it : items A) : bool :=
  match it with
  | Done => true
  | Broken => false
  | Item _ rest => complete rest
  end.

(** The chunks of a body before its end or break, put together. *)
Fixpoint body_text (chunks : items string) : string :=
  match chunks with
  | Item chunk rest => String.append chunk (body_text rest)
  | _ => ""
  end.

(** The status is one [raise_for_status] raises on. *)
Definition error_status (r : Fetcher.response) : bool :=
  (400 <=? Fetcher.status r) && (Fetcher.status r <? 600).

(** The URL [main] uses for the compact database: the environment's, or
    the default. *)
Definition compact_url_of (w : Fetcher.world) : string :=
  match Fetcher.environ w !! "COMPACT_DATABASE_URL" with
  | Some u => u
  | None => Fetcher.DEFAULT_COMPACT_URL
  end.

(** Neither database file exists. *)
Definition no_database (w : Fetcher.world) : bool :=
  negb (is_some (Fetcher.files w !! Fetcher.COMPACT_DB))
  && negb (is_some (Fetcher.files w !! Fetcher.FULL_DB)).

(** ** Helper lemmas *)

Lemma py_for_flat_map {A} (body : value -> result (list A)) (f : value -> list A) l :
  (forall x, In x l -> body x = Ok (f x)) ->
  py_for l body = Ok (flat_map f l).
Proof.
  induction l as [|x l IH]; intros H; simpl.
  - reflexivity.
  - rewrite (H x (or_introl eq_refl)). simpl.
    rewrite IH by (intros y Hy; apply H; right; exact Hy).
    reflexivity.
Qed.

Lemma flat_map_filter {A B} (keep : A -> bool) (f : A -> list B) l :
  (forall x, keep x = false -> f x = []) ->
  flat_map f (List.filter keep l) = flat_map f l.
Proof.
  intros H. induction l as [|x l IH]; simpl.
  - reflexivity.
  - destruct (keep x) eqn:E; simpl.
    + now rewrite IH.
    + now rewrite (H x E), IH.
Qed.

Lemma pick_present_dict d keys :
  pick_present (VDict d) keys = Ok (present d keys).
Proof.
  induction keys as [|k keys IH]; simpl.
  - reflexivity.
  - unfold present, field, field_or in *. simpl. rewrite IH.
    destruct (is_none _); reflexivity.
Qed.

Lemma simplify_dosing_eq v : simplify_dosing v = Ok (dosing_of v).
Proof.
  destruct v; try reflexivity.
  unfold simplify_dosing. cbn [is_dict negb].
  rewrite pick_present_dict. cbn [rbind py_get py_get_default].
  change (match dict_lookup d "openfda_full" with Some v => v | None => VNone end)
    with (field d "openfda_full").
  unfold dosing_of.
  destruct (field d "openfda_full"); try reflexivity.
  cbn [is_dict]. rewrite pick_present_dict. reflexivity.
Qed.

Lemma simplify_interactions_eq v :
  simplify_interactions v = Ok (VList (flat_map interaction_entry (entries v))).
Proof.
  destruct v; try reflexivity.
  unfold simplify_interactions, entries.
  rewrite (py_for_flat_map _ interaction_entry); [reflexivity|].
  intros x _. destruct x; reflexivity.
Qed.

Lemma simplify_dosages_eq v :
  simplify_dosages v = Ok (VList (flat_map dosage_entry (entries v))).
Proof.
  destruct v; try reflexivity.
  unfold simplify_dosages, entries.
  rewrite (py_for_flat_map _ dosage_entry); [reflexivity|].
  intros x _. destruct x; reflexivity.
Qed.

Lemma simplify_categories_eq v :
  simplify_categories v = Ok (VList (flat_map category_labels (entries v))).
Proof.
  destruct v; try reflexivity.
  unfold simplify_categories, entries.
  rewrite (py_for_flat_map _ category_labels); [reflexivity|].
  intros x _. destruct x; try reflexivity.
  cbn [is_dict category_labels first_nonempty py_get py_get_default rbind].
  unfold py_or, field, field_or.
  destruct (truthy (match dict_lookup d "category" with Some v => v | None => VNone end))
    eqn:E1; repeat (progress (cbn [rbind]; rewrite ?E1)); [reflexivity|].
  destruct (truthy (match dict_lookup d "mesh_id" with Some v => v | None => VNone end))
    eqn:E2; repeat (progress (cbn [rbind]; rewrite ?E2)); [reflexivity|].
  destruct (truthy (match dict_lookup d "name" with Some v => v | None => VNone end))
    eqn:E3; repeat (progress (cbn [rbind]; rewrite ?E3)); reflexivity.
Qed.

Lemma simplify_properties_eq v :
  forallb kind_hashable (entries v) = true ->
  simplify_properties v = Ok (VList (flat_map property_entry (entries v))).
Proof.
  intros H. destruct v; try reflexivity.
  unfold simplify_properties. simpl entries in *.
  rewrite (py_for_flat_map _ property_entry); [reflexivity|].
  intros x Hx. rewrite forallb_forall in H. specialize (H x Hx).
  destruct x; try reflexivity.
  cbn [is_dict negb py_get py_get_default rbind].
  unfold property_entry, essential, kind_hashable, field, field_or in *.
  destruct (match dict_lookup d "kind" with Some v => v | None => VNone end);
    try discriminate; try reflexivity.
  cbn [py_in_set rbind].
  destruct (existsb (String.eqb s) ESSENTIAL_PROPERTY_KINDS); reflexivity.
Qed.

Lemma trim_drug_dict d :
  trim_drug (VDict d) =
  match field_or d "drugbank_ids" (VDict []) with
  | VDict ids =>
      let? props := simplify_properties (field d "experimental_properties") in
      Ok (trimmed d ids props)
  | _ => Raise AttributeError
  end.
Proof.
  unfold trim_drug. cbn [py_get py_get_default rbind].
  change (match dict_lookup d "drugbank_ids" with Some v => v | None => VDict [] end)
    with (field_or d "drugbank_ids" (VDict [])).
  destruct (field_or d "drugbank_ids" (VDict [])) as [| | | | |l|ids]; try reflexivity.
  cbn [py_get py_get_default rbind].
  rewrite simplify_categories_eq, simplify_interactions_eq. cbn [rbind].
  change (match dict_lookup d "experimental_properties" with Some v => v | None => VNone end)
    with (field d "experimental_properties").
  destruct (simplify_properties (field d "experimental_properties")) as [props|e];
    [|reflexivity].
  cbn [rbind]. rewrite simplify_dosages_eq, simplify_dosing_eq. reflexivity.
Qed.

Lemma trim_drug_shaped d :
  drug_shaped d = true ->
  exists ids,
    field_or d "drugbank_ids" (VDict []) = VDict ids /\
    trim_drug (VDict d) =
    Ok (trimmed d ids
          (VList (flat_map property_entry
                    (entries (field d "experimental_properties"))))).
Proof.
  unfold drug_shaped. intros H. apply andb_prop in H as [Hids Hk].
  rewrite trim_drug_dict.
  destruct (field_or d "drugbank_ids" (VDict [])) as [| | | | |l|ids]; try discriminate.
  exists ids. split; [reflexivity|].
  now rewrite (simplify_properties_eq _ Hk).
Qed.

Lemma trim_drug_returns d out :
  trim_drug (VDict d) = Ok out ->
  exists ids props,
    field_or d "drugbank_ids" (VDict []) = VDict ids /\
    simplify_properties (field d "experimental_properties") = Ok props /\
    out = trimmed d ids props.
Proof.
  rewrite trim_drug_dict.
  destruct (field_or d "drugbank_ids" (VDict [])) as [| | | | |l|ids]; try discriminate.
  destruct (simplify_properties (field d "experimental_properties")) as [props|e];
    cbn [rbind]; [|discriminate].
  intros [= <-]. now exists ids, props.
Qed.

Lemma flat_map_keep {A B} (keep : A -> bool) (g : A -> B) (f : A -> list B) l :
  (forall x, f x = if keep x then [g x] else []) ->
  flat_map f l = map g (List.filter keep l).
Proof.
  intros H. induction l as [|x l IH]; simpl.
  - reflexivity.
  - rewrite H, IH. destruct (keep x); reflexivity.
Qed.

(** ** The claims on [simplify_*] *)

(** C3. Every entry of a categories list that is a plain string is kept as
    it is, every entry that is a mapping contributes the first non-empty
    (true) value among its [category], [mesh_id] and [name] keys, or nothing
    when there is none; and [["A", {"category": "B"}, {"mesh_id": "C"}, {}]]
    becomes [["A", "B", "C"]]. *)
Theorem C3_simplify_categories :
  (forall l,
      simplify_categories (VList l) = Ok (VList (flat_map category_labels l)))
  /\ (forall s, category_labels (VStr s) = [VStr s])
  /\ (forall d,
         category_labels (VDict d) =
         match first_nonempty d ["category"; "mesh_id"; "name"] with
         | Some label => [label]
         | None => []
         end)
  /\ simplify_categories
       (VList [VStr "A"; VDict [("category", VStr "B")];
               VDict [("mesh_id", VStr "C")]; VDict []])
     = Ok (VList [VStr "A"; VStr "B"; VStr "C"]).
Proof.
  repeat split.
  intros l. apply (simplify_categories_eq (VList l)).
Qed.

(** C4, as the code has it. When no mapping entry of an
    experimental_properties list has a list or a mapping as [kind], the
    output is exactly the entries that are mappings with a [kind] in the
    allowed set, in order, each reduced to the keys [kind], [value], [unit];
    every other entry is dropped. *)
Theorem C4_simplify_properties l :
  forallb kind_hashable l = true ->
  simplify_properties (VList l)
  = Ok (VList (map (reduce_entry "kind" "value" "unit") (List.filter essential l)))
  /\ Forall (fun x => exists k v u,
                 reduce_entry "kind" "value" "unit" x
                 = VDict [("kind", VStr k); ("value", v); ("unit", u)]
                 /\ In k ESSENTIAL_PROPERTY_KINDS)
            (List.filter essential l).
Proof.
  intros H. split.
  - rewrite (simplify_properties_eq (VList l) H). simpl entries.
    rewrite (flat_map_keep essential (reduce_entry "kind" "value" "unit")); [reflexivity|].
    intros x. unfold property_entry. destruct x; try reflexivity.
  - apply List.Forall_forall. intros x Hx. apply List.filter_In in Hx as [_ Hx].
    destruct x; try discriminate. unfold essential in Hx.
    destruct (field d "kind") eqn:Ek; try discriminate.
    exists s, (field d "value"), (field d "unit"). split.
    + unfold reduce_entry, reduced3. now rewrite Ek.
    + apply existsb_exists in Hx as [k [Hin Heq]].
      apply String.eqb_eq in Heq. now subst.
Qed.

Lemma C4_simplify_properties_witness :
  simplify_properties
    (VList [VDict [("kind", VStr "logP"); ("value", VStr "1.2"); ("source", VStr "x")];
            VDict [("kind", VStr "Boiling Point"); ("value", VStr "100")];
            VStr "stray"])
  = Ok (VList [VDict [("kind", VStr "logP"); ("value", VStr "1.2"); ("unit", VNone)]]).
Proof.
  exact (proj1 (C4_simplify_properties
                  [VDict [("kind", VStr "logP"); ("value", VStr "1.2"); ("source", VStr "x")];
                   VDict [("kind", VStr "Boiling Point"); ("value", VStr "100")];
                   VStr "stray"] eq_refl)).
Defined.

(** C4 as stated fails: an entry whose [kind] is a list cannot be hashed,
    and the membership test raises instead of dropping the entry. *)
Lemma C4_unhashable_kind_raises :
  simplify_properties (VList [VDict [("kind", VList [])]]) = Raise TypeError
  /\ simplify_properties (VList [VDict [("kind", VList [])]])
     <> Ok (VList (map (reduce_entry "kind" "value" "unit")
                       (List.filter essential [VDict [("kind", VList [])]]))).
Proof. split; [reflexivity|discriminate]. Qed.

(** C5. The simplify functions never raise on malformed shapes: a
    dosing_info that is no mapping (a missing one reads as [None]) gives
    [{}]; categories, drug_interactions and dosages that are no sequence
    give [[]]; and inside a sequence the entries that are no mappings (for
    categories: neither mappings nor plain strings) are skipped. *)
Theorem C5_simplify_total :
  (forall v, exists out, simplify_dosing v = Ok out)
  /\ (forall v, is_dict v = false -> simplify_dosing v = Ok (VDict []))
  /\ (forall v, is_list v = false ->
        simplify_categories v = Ok (VList [])
        /\ simplify_interactions v = Ok (VList [])
        /\ simplify_dosages v = Ok (VList []))
  /\ (forall l,
        simplify_categories (VList l)
        = Ok (VList (flat_map category_labels
                       (List.filter (fun x => is_dict x || is_str x) l))))
  /\ (forall l,
        simplify_interactions (VList l)
        = Ok (VList (map (reduce_entry "drugbank_id" "name" "description")
                       (List.filter is_dict l))))
  /\ (forall l,
        simplify_dosages (VList l)
        = Ok (VList (map (reduce_entry "form" "route" "strength")
                       (List.filter is_dict l)))).
Proof.
  split; [|split; [|split; [|split; [|split]]]].
  - intros v. exists (dosing_of v). apply simplify_dosing_eq.
  - intros v H. destruct v; try reflexivity. discriminate.
  - intros v H. destruct v; try discriminate; repeat split.
  - intros l. rewrite (simplify_categories_eq (VList l)). simpl entries.
    rewrite flat_map_filter; [reflexivity|].
    intros x Hx. destruct x; try reflexivity; discriminate.
  - intros l. rewrite (simplify_interactions_eq (VList l)). simpl entries.
    rewrite (flat_map_keep is_dict (reduce_entry "drugbank_id" "name" "description"));
      [reflexivity|].
    intros x. destruct x; reflexivity.
  - intros l. rewrite (simplify_dosages_eq (VList l)). simpl entries.
    rewrite (flat_map_keep is_dict (reduce_entry "form" "route" "strength"));
      [reflexivity|].
    intros x. destruct x; reflexivity.
Qed.

Lemma C5_simplify_total_witness :
  simplify_dosing (VStr "twice daily") = Ok (VDict [])
  /\ simplify_dosing VNone = Ok (VDict [])
  /\ simplify_categories (VInt 3) = Ok (VList [])
  /\ simplify_interactions (VDict []) = Ok (VList [])
  /\ simplify_dosages VNone = Ok (VList []).
Proof.
  destruct C5_simplify_total as [_ [Hd [Hl _]]].
  split; [apply Hd; reflexivity|].
  split; [apply Hd; reflexivity|].
  split; [apply (Hl (VInt 3)); reflexivity|].
  split; [apply (Hl (VDict [])); reflexivity|].
  apply (Hl VNone); reflexivity.
Defined.

(** ** The claims on [trim_drug] *)

Ltac in_cases H :=
  repeat (destruct H as [<- | H]; [|]); try contradiction.

(** C1, as the code has it. In every trimmed record each retained field is
    present, also when it is missing in the source: a missing copied field
    ([name], [description], [type], [mechanism_of_action], [half_life],
    [absorption], [metabolism], and [primary] inside [drugbank_ids]) is
    present with the value [None], a missing sequence field is [[]], a
    missing [dosing_info] is [{}], and a missing [drugbank_ids] is
    [{"primary": None, "secondary": []}]. *)
Theorem C1_missing_fields d out :
  trim_drug (VDict d) = Ok (VDict out) ->
  (forall k, In k copied_fields -> dict_lookup d k = None ->
             dict_lookup out k = Some VNone)
  /\ (forall k, In k sequence_fields -> dict_lookup d k = None ->
                dict_lookup out k = Some (VList []))
  /\ (dict_lookup d "dosing_info" = None ->
      dict_lookup out "dosing_info" = Some (VDict []))
  /\ (dict_lookup d "drugbank_ids" = None ->
      dict_lookup out "drugbank_ids"
      = Some (VDict [("primary", VNone); ("secondary", VList [])]))
  /\ (forall ids, dict_lookup d "drugbank_ids" = Some (VDict ids) ->
        dict_lookup out "drugbank_ids"
        = Some (VDict [("primary", field ids "primary");
                       ("secondary", field_or ids "secondary" (VList []))])).
Proof.
  intros H. apply trim_drug_returns in H as (ids & props & Hids & Hprops & Hout).
  injection Hout as ->.
  split; [|split; [|split; [|split]]].
  - intros k Hk Hmiss. unfold copied_fields in Hk. simpl in Hk.
    in_cases Hk; simpl; unfold field, field_or; now rewrite Hmiss.
  - intros k Hk Hmiss. unfold sequence_fields in Hk. simpl in Hk.
    in_cases Hk; simpl; unfold field, field_or in *; rewrite ?Hmiss; try reflexivity.
    rewrite Hmiss in Hprops. now injection Hprops as <-.
  - intros Hmiss. simpl. unfold field, field_or. now rewrite Hmiss.
  - intros Hmiss. unfold field_or in Hids. rewrite Hmiss in Hids.
    injection Hids as <-. reflexivity.
  - intros ids' Hsome. unfold field_or in Hids. rewrite Hsome in Hids.
    injection Hids as <-. reflexivity.
Qed.

Lemma C1_missing_fields_witness :
  dict_lookup
    [("name", VNone);
     ("drugbank_ids", VDict [("primary", VNone); ("secondary", VList [])]);
     ("description", VNone); ("type", VStr "biotech"); ("groups", VList []);
     ("categories", VList []); ("mechanism_of_action", VNone);
     ("half_life", VNone); ("absorption", VNone); ("metabolism", VNone);
     ("food_interactions", VList []); ("drug_interactions", VList []);
     ("experimental_properties", VList []); ("dosages", VList []);
     ("dosing_info", VDict [])]
    "description"
  = Some VNone.
Proof.
  refine (proj1 (C1_missing_fields [("type", VStr "biotech")] _ _) "description" _ _).
  - reflexivity.
  - simpl. tauto.
  - reflexivity.
Defined.

(** C1 as stated fails: the empty record has no [name], and its trimmed
    record still has the key [name], with the value [None]. *)
Lemma C1_missing_name_present_as_null :
  exists out,
    trim_drug (VDict []) = Ok (VDict out)
    /\ dict_lookup [] "name" = None
    /\ dict_lookup out "name" = Some VNone
    /\ dict_lookup out "name" <> None.
Proof.
  eexists. split; [reflexivity|]. repeat split. discriminate.
Qed.

(** C10, as the code has it. For every drug mapping whose [drugbank_ids] is
    absent or a mapping and whose experimental_properties have no list or
    mapping as [kind] (the empty mapping is one), [trim_drug] returns a
    mapping with exactly the fifteen fixed keys, whose [drugbank_ids] is a
    mapping with exactly the keys [primary] and [secondary], the latter
    [[]] when the source has none; and whenever [trim_drug] returns, its
    result has these keys. *)
Theorem C10_trim_drug_keys :
  drug_shaped [] = true
  /\ (forall d, drug_shaped d = true ->
        exists out ids,
          trim_drug (VDict d) = Ok (VDict out)
          /\ dict_keys out = trimmed_keys
          /\ length (dict_keys out) = 15%nat
          /\ dict_lookup out "drugbank_ids" = Some (VDict ids)
          /\ dict_keys ids = ["primary"; "secondary"]
          /\ (forall src, field_or d "drugbank_ids" (VDict []) = VDict src ->
                dict_lookup src "secondary" = None ->
                dict_lookup ids "secondary" = Some (VList [])))
  /\ (forall d r, trim_drug (VDict d) = Ok r ->
        exists out ids,
          r = VDict out
          /\ dict_keys out = trimmed_keys
          /\ dict_lookup out "drugbank_ids" = Some (VDict ids)
          /\ dict_keys ids = ["primary"; "secondary"]).
Proof.
  split; [reflexivity|]. split.
  - intros d H. apply trim_drug_shaped in H as (src & Hsrc & Hrun).
    eexists. eexists. split; [exact Hrun|].
    repeat split.
    intros src' Hsrc' Hmiss. rewrite Hsrc in Hsrc'. injection Hsrc' as <-.
    simpl. unfold field_or. now rewrite Hmiss.
  - intros d r H. apply trim_drug_returns in H as (ids & props & _ & _ & ->).
    eexists. eexists. repeat split.
Qed.

Lemma C10_trim_drug_keys_witness :
  exists out ids,
    trim_drug (VDict [("name", VStr "Aspirin"); ("drugbank_ids", VDict [("primary", VStr "DB00945")])])
    = Ok (VDict out)
    /\ dict_keys out = trimmed_keys
    /\ dict_lookup out "drugbank_ids" = Some (VDict ids)
    /\ dict_lookup ids "secondary" = Some (VList []).
Proof.
  destruct (proj1 (proj2 C10_trim_drug_keys)
              [("name", VStr "Aspirin"); ("drugbank_ids", VDict [("primary", VStr "DB00945")])]
              eq_refl)
    as (out & ids & Hrun & Hkeys & _ & Hids & _ & Hsec).
  exists out, ids. repeat split; try assumption.
  apply (Hsec [("primary", VStr "DB00945")]); reflexivity.
Defined.

(** C10 as stated fails: a record whose [drugbank_ids] is null is a drug
    mapping, and [trim_drug] raises on it instead of returning. *)
Lemma C10_null_drugbank_ids_raises :
  trim_drug (VDict [("drugbank_ids", VNone)]) = Raise AttributeError
  /\ forall r, trim_drug (VDict [("drugbank_ids", VNone)]) <> Ok r.
Proof. split; [reflexivity|discriminate]. Qed.

(** * Properties of the Compactor's entry point *)

Lemma py_for_raises {A} (body : value -> result (list A)) l e :
  py_for l body = Raise e -> exists x, In x l /\ body x = Raise e.
Proof.
  induction l as [|x l IH]; simpl; [discriminate|].
  destruct (body x) as [ys|e'] eqn:Hx; simpl.
  - destruct (py_for l body) as [rest|e'']; simpl; [discriminate|].
    intros [= <-]. destruct (IH eq_refl) as (y & Hy & Hr).
    exists y. split; [now right|exact Hr].
  - intros [= <-]. exists x. split; [now left|exact Hx].
Qed.

Lemma simplify_properties_raises v e :
  simplify_properties v = Raise e -> e = TypeError.
Proof.
  destruct v; try discriminate. unfold simplify_properties.
  destruct (py_for l _) as [out|e'] eqn:Hfor; simpl; [discriminate|].
  intros [= <-]. apply py_for_raises in Hfor as (x & _ & Hx).
  destruct x; try discriminate.
  cbn [is_dict negb py_get py_get_default rbind] in Hx.
  destruct (match dict_lookup d "kind" with Some v => v | None => VNone end);
    cbn [py_in_set rbind] in Hx; try discriminate; try congruence.
  destruct (existsb _ _); discriminate.
Qed.

Lemma trim_drug_raises v e :
  trim_drug v = Raise e -> e = AttributeError \/ e = TypeError.
Proof.
  destruct v; try (intros [= <-]; now left).
  rewrite trim_drug_dict.
  destruct (field_or d "drugbank_ids" (VDict [])); try (intros [= <-]; now left).
  destruct (simplify_properties (field d "experimental_properties")) as [p|e'] eqn:Hp;
    cbn [rbind]; [discriminate|].
  intros [= <-]. right. exact (simplify_properties_raises _ _ Hp).
Qed.

Lemma write_drugs_spec drugs :
  forall first w,
    Compactor.SOURCE (snd (Compactor.write_drugs drugs first w)) = Compactor.SOURCE w
    /\ (is_some (Compactor.TARGET w) = true ->
        is_some (Compactor.TARGET (snd (Compactor.write_drugs drugs first w))) = true)
    /\ (if drugs_ok drugs
        then fst (Compactor.write_drugs drugs first w) = Ok tt
        else exists e, fst (Compactor.write_drugs drugs first w) = Raise e
                       /\ e <> FileNotFoundError).
Proof.
  induction drugs as [| |drug rest IH]; intros first w.
  - simpl. auto.
  - simpl. repeat split; auto. exists JSONError. split; [reflexivity|discriminate].
  - simpl. unfold bind at 1, lift, trims.
    destruct (trim_drug drug) as [t|e] eqn:Ht.
    + unfold bind.
      destruct first; simpl;
        match goal with
        | |- context [Compactor.write_drugs rest false ?w1] =>
            destruct (IH false w1) as (Hs & Ht' & Hr)
        end;
        (split; [exact Hs|]; split; [intros _; apply Ht'; reflexivity|exact Hr]).
    + simpl. repeat split; auto. exists e. split; [reflexivity|].
      destruct (trim_drug_raises _ _ Ht); subst; discriminate.
Qed.

Lemma main_missing_source w :
  Compactor.SOURCE w = None ->
  Compactor.main w = (Raise FileNotFoundError, w).
Proof.
  intros H. unfold Compactor.main, bind, Compactor.source_exists.
  rewrite H. reflexivity.
Qed.

Lemma main_skip w f t :
  Compactor.SOURCE w = Some f ->
  Compactor.TARGET w = Some t ->
  Compactor.main w
  = (Ok tt, {| Compactor.SOURCE := Compactor.SOURCE w;
               Compactor.TARGET := Compactor.TARGET w;
               Compactor.stdout := Compactor.stdout w ++ [Compactor.AlreadyExists] |}).
Proof.
  intros Hs Ht.
  unfold Compactor.main, bind, Compactor.source_exists, Compactor.target_exists.
  rewrite Hs. cbn [negb]. cbv beta. rewrite Ht.
  unfold Compactor.print. rewrite ?Hs, ?Ht. reflexivity.
Qed.

Ltac run_main :=
  cbv beta iota zeta delta
    [Compactor.main bind Compactor.source_exists Compactor.target_exists
     Compactor.print Compactor.open_source Compactor.open_target
     Compactor.write Compactor.next raise ret negb andb is_some has_metadata
     Compactor.SOURCE Compactor.TARGET Compactor.stdout
     Compactor.at_metadata Compactor.at_drugs_item fst snd].

Lemma main_generate w f :
  Compactor.SOURCE w = Some f ->
  Compactor.TARGET w = None ->
  Compactor.SOURCE (snd (Compactor.main w)) = Compactor.SOURCE w
  /\ (if has_metadata f && drugs_ok (Compactor.at_drugs_item f)
      then fst (Compactor.main w) = Ok tt
           /\ is_some (Compactor.TARGET (snd (Compactor.main w))) = true
      else exists e, fst (Compactor.main w) = Raise e /\ e <> FileNotFoundError).
Proof.
  destruct w as [src tgt out], f as [md dr]. simpl. intros -> ->.
  destruct md as [| |m rest]; run_main.
  - split; [reflexivity|].
    exists StopIteration. split; [reflexivity|discriminate].
  - split; [reflexivity|].
    exists JSONError. split; [reflexivity|discriminate].
  - match goal with
    | |- context [Compactor.write_drugs dr true ?w1] =>
        destruct (write_drugs_spec dr true w1) as (Hsrc & Htgt & Hres);
        destruct (Compactor.write_drugs dr true w1) as [[[]|e] w2]
    end; cbn [fst snd Compactor.SOURCE Compactor.TARGET] in *.
    + split; [exact Hsrc|].
      destruct (drugs_ok dr).
      * split; [reflexivity|]. destruct (Compactor.TARGET w2); reflexivity.
      * destruct Hres as (e & He & _). discriminate.
    + split; [exact Hsrc|].
      destruct (drugs_ok dr); [discriminate|].
      destruct Hres as (e' & [= <-] & Hne). exists e. split; [reflexivity|exact Hne].
Qed.

Lemma main_second_run w f t :
  Compactor.SOURCE w = Some f ->
  Compactor.TARGET w = Some t ->
  fst (Compactor.main w) = Ok tt
  /\ Compactor.SOURCE (snd (Compactor.main w)) = Compactor.SOURCE w
  /\ Compactor.TARGET (snd (Compactor.main w)) = Compactor.TARGET w.
Proof.
  intros Hs Ht. rewrite (main_skip w f t Hs Ht). repeat split.
Qed.

(** C6, as the code has it. [main] raises the not-found error exactly when
    the source file does not exist, whether or not the target exists.  When
    the source exists, [main] completes without raising exactly when the
    target already exists or the source can be read through: the parser
    finds a [metadata] item, reads the [drugs] array to its end, and
    [trim_drug] returns on every record. *)
Theorem C6_main_outcome w :
  (fst (Compactor.main w) = Raise FileNotFoundError <-> Compactor.SOURCE w = None)
  /\ (Compactor.SOURCE w = None -> is_some (Compactor.TARGET w) = true ->
      fst (Compactor.main w) = Raise FileNotFoundError)
  /\ (forall f, Compactor.SOURCE w = Some f ->
        (fst (Compactor.main w) = Ok tt <->
         is_some (Compactor.TARGET w)
         || (has_metadata f && drugs_ok (Compactor.at_drugs_item f)) = true)).
Proof.
  destruct (Compactor.SOURCE w) as [f|] eqn:Hs.
  - destruct (Compactor.TARGET w) as [t|] eqn:Ht.
    + destruct (main_second_run w f t Hs Ht) as (Hok & _ & _).
      split; [|split].
      * rewrite Hok. split; discriminate.
      * discriminate.
      * intros f' _. rewrite Hok. simpl. tauto.
    + destruct (main_generate w f Hs Ht) as (_ & Hres).
      split; [|split].
      * split; [|discriminate].
        destruct (has_metadata f && drugs_ok (Compactor.at_drugs_item f)).
        -- destruct Hres as (Hok & _). rewrite Hok. discriminate.
        -- destruct Hres as (e & He & Hne). rewrite He. intros [= ->]. now elim Hne.
      * discriminate.
      * intros f' [= <-]. cbn [is_some orb].
        destruct (has_metadata f && drugs_ok (Compactor.at_drugs_item f)).
        -- destruct Hres as (Hok & _). rewrite Hok. tauto.
        -- destruct Hres as (e & He & _). rewrite He. split; discriminate.
  - rewrite (main_missing_source w Hs). split; [|split].
    + tauto.
    + reflexivity.
    + discriminate.
Qed.

Lemma C6_main_outcome_witness :
  fst (Compactor.main sample_world) = Ok tt.
Proof.
  refine (proj2 (proj2 (proj2 (C6_main_outcome sample_world)) _ eq_refl) _).
  reflexivity.
Defined.

(** C6 as stated fails: a source that exists and holds [{"drugs": []}] has
    no [metadata] item, and [main] raises [StopIteration]. *)
Lemma C6_source_without_metadata_raises :
  let w := {| Compactor.SOURCE :=
                Some (Compactor.json_file_of (VDict [("drugs", VList [])]));
              Compactor.TARGET := None;
              Compactor.stdout := [] |} in
  Compactor.SOURCE w <> None
  /\ fst (Compactor.main w) = Raise StopIteration
  /\ fst (Compactor.main w) <> Ok tt.
Proof. simpl. repeat split; discriminate. Qed.

(** * Properties of the Fetcher *)

Lemma write_chunks_frame target chunks :
  forall w,
    Fetcher.requests (snd (Fetcher.write_chunks target chunks w)) = Fetcher.requests w
    /\ Fetcher.network (snd (Fetcher.write_chunks target chunks w)) = Fetcher.network w.
Proof.
  induction chunks as [| |chunk rest IH]; intros w; simpl; auto.
  unfold bind. destruct (negb (String.eqb chunk "")); simpl.
  - destruct (IH (Fetcher.with_files
                    (<[target := String.append
                                   match Fetcher.files w !! target with
                                   | Some c => c
                                   | None => ""
                                   end chunk]> (Fetcher.files w)) w)) as (H1 & H2).
    split; [exact H1|exact H2].
  - apply IH.
Qed.

(** After the response is obtained, no further request goes out. *)
Lemma download_file_requests url target w :
  Fetcher.requests (snd (Fetcher.download_file url target w))
  = Fetcher.requests (snd (Fetcher.get_response (Fetcher.download_url_of url) w)).
Proof.
  unfold Fetcher.download_file, Fetcher.download_body, try_except, bind at 1.
  destruct (Fetcher.get_response (Fetcher.download_url_of url) w) as [[r|e] w1];
    [|reflexivity].
  unfold bind at 1, Fetcher.raise_for_status.
  destruct ((400 <=? Fetcher.status r) && (Fetcher.status r <? 600)); [reflexivity|].
  unfold ret at 1. unfold bind at 1, Fetcher.open_wb.
  destruct (Fetcher.writable w1 target); [|reflexivity].
  unfold bind at 1.
  match goal with
  | |- context [Fetcher.write_chunks target ?c ?w2] =>
      destruct (write_chunks_frame target c w2) as (Hr & _);
      destruct (Fetcher.write_chunks target c w2) as [[[]|e] w3]
  end; simpl in *; exact Hr.
Qed.

Lemma download_file_total url target w :
  exists b, fst (Fetcher.download_file url target w) = Ok b.
Proof.
  unfold Fetcher.download_file, try_except.
  destruct (Fetcher.download_body url target w) as [[b|e] w1].
  - now exists b.
  - now exists false.
Qed.

Lemma ensure_file_total target url w :
  fst (Fetcher.ensure_file target url w) = Ok tt.
Proof.
  unfold Fetcher.ensure_file, bind, Fetcher.exists_.
  destruct (Fetcher.files w !! target); [reflexivity|].
  destruct url as [u|]; [|reflexivity].
  destruct (negb (Fetcher.truthy_opt (Some u))); [reflexivity|].
  destruct (download_file_total u target w) as (b & Hb).
  destruct (Fetcher.download_file u target w) as [[b'|e] w1]; simpl in *;
    [reflexivity|discriminate].
Qed.

Lemma find_token_none cs :
  Fetcher.find_token cs = None <->
  forallb (fun c => negb (String.prefix "download_warning" (fst c))) cs = true.
Proof.
  induction cs as [|[key value] cs IH]; simpl.
  - tauto.
  - destruct (String.prefix "download_warning" key); simpl.
    + split; discriminate.
    + exact IH.
Qed.

Lemma find_token_first cs t :
  Fetcher.find_token cs = Some t ->
  exists before key after,
    cs = before ++ (key, t) :: after
    /\ String.prefix "download_warning" key = true
    /\ Fetcher.find_token before = None.
Proof.
  induction cs as [|[key value] cs IH]; simpl; [discriminate|].
  destruct (String.prefix "download_warning" key) eqn:Hk.
  - intros [= ->]. now exists [], key, cs.
  - intros H. destruct (IH H) as (before & key' & after & -> & Hp & Hb).
    exists ((key, value) :: before), key', after. repeat split; auto.
    simpl. now rewrite Hk.
Qed.

(** C7, as the code has it. When the initial response carries a cookie
    whose key starts with [download_warning] and the first such cookie has
    a non-empty value, a second request goes to the same download URL with
    that value as the [confirm] parameter, and its response is the one
    used; otherwise (no such cookie, or the first one has an empty value)
    only the initial request is sent and the initial response is used. *)
Theorem C7_confirmation_request url target w r :
  let u := Fetcher.download_url_of url in
  let initial := {| Fetcher.req_url := u; Fetcher.req_params := [] |} in
  Fetcher.network w (Fetcher.requests w) initial = Fetcher.Reply r ->
  (forall t,
      Fetcher.find_token (Fetcher.cookies r) = Some t -> t <> "" ->
      let second := {| Fetcher.req_url := u; Fetcher.req_params := [("confirm", t)] |} in
      Fetcher.requests (snd (Fetcher.download_file url target w))
      = Fetcher.requests w ++ [initial; second]
      /\ fst (Fetcher.get_response u w)
         = match Fetcher.network w (Fetcher.requests w ++ [initial]) second with
           | Fetcher.Reply r2 => Ok r2
           | Fetcher.Unreachable => Raise ConnectionError
           end)
  /\ (Fetcher.find_token (Fetcher.cookies r) = None
      \/ Fetcher.find_token (Fetcher.cookies r) = Some "" ->
      Fetcher.requests (snd (Fetcher.download_file url target w))
      = Fetcher.requests w ++ [initial]
      /\ fst (Fetcher.get_response u w) = Ok r)
  /\ (Fetcher.find_token (Fetcher.cookies r) = None <->
      forallb (fun c => negb (String.prefix "download_warning" (fst c)))
              (Fetcher.cookies r) = true)
  /\ (forall t,
        Fetcher.find_token (Fetcher.cookies r) = Some t ->
        exists before key after,
          Fetcher.cookies r = before ++ (key, t) :: after
          /\ String.prefix "download_warning" key = true
          /\ Fetcher.find_token before = None).
Proof.
  intros u initial Hnet.
  split; [|split; [|split]].
  - intros t Ht Hne second. rewrite download_file_requests. fold u.
    unfold Fetcher.get_response, bind, Fetcher.session_get.
    fold initial. rewrite Hnet. rewrite Ht. unfold Fetcher.truthy_opt.
    apply String.eqb_neq in Hne. rewrite Hne.
    cbn [negb Fetcher.requests Fetcher.network]. fold second.
    destruct (Fetcher.network w (Fetcher.requests w ++ [initial]) second);
      cbn [fst snd Fetcher.requests]; (split; [|reflexivity]);
      now rewrite <- app_assoc.
  - intros Hnone. rewrite download_file_requests. fold u.
    unfold Fetcher.get_response, bind, Fetcher.session_get.
    fold initial. rewrite Hnet.
    destruct Hnone as [-> | ->]; split; reflexivity.
  - apply find_token_none.
  - apply find_token_first.
Qed.

Lemma C7_confirmation_request_witness :
  Fetcher.requests
    (snd (Fetcher.download_file "https://example.org/db.json" "db.json"
            (quiet_world [("NID", "511"); ("download_warning_13058876", "t0k3n")])))
  = [ {| Fetcher.req_url := "https://example.org/db.json"; Fetcher.req_params := [] |};
      {| Fetcher.req_url := "https://example.org/db.json";
         Fetcher.req_params := [("confirm", "t0k3n")] |} ].
Proof.
  refine (proj1 (proj1 (C7_confirmation_request "https://example.org/db.json" "db.json"
                          (quiet_world [("NID", "511");
                                        ("download_warning_13058876", "t0k3n")])
                          _ eq_refl) "t0k3n" eq_refl _)).
  discriminate.
Defined.

(** C7 as stated fails: the initial response carries a cookie whose key
    starts with the marker, its value is empty, and no second request is
    sent. *)
Lemma C7_empty_token_sends_no_second_request :
  let w := quiet_world [("download_warning_13058876", "")] in
  existsb (fun c => String.prefix "download_warning" (fst c))
          [("download_warning_13058876", "")] = true
  /\ Fetcher.requests
       (snd (Fetcher.download_file "https://example.org/db.json" "db.json" w))
     = [ {| Fetcher.req_url := "https://example.org/db.json"; Fetcher.req_params := [] |} ].
Proof. split; reflexivity. Qed.

(** C8. The share link of the sample gives the identifier [ABC123], and
    that identifier the direct download URL. *)
Theorem C8_drive_url :
  Fetcher.extract_drive_file_id
    "https://drive.google.com/file/d/ABC123/view?usp=drive_link"
  = Some "ABC123"
  /\ Fetcher.build_drive_download_url "ABC123"
     = "https://drive.google.com/uc?export=download&id=ABC123".
Proof. split; reflexivity. Qed.

(** C9. Download failures are soft: [download_file] never raises, and
    returns [False] with a report whenever its body raises, in particular
    on a response with a 4xx or 5xx status and when no response comes;
    [ensure_file] with no URL for an absent target only prints a warning;
    [ensure_file] and the Fetcher's [main] always complete. *)
Theorem C9_soft_failures :
  (forall url target w, exists b, fst (Fetcher.download_file url target w) = Ok b)
  /\ (forall url target w e w1,
        Fetcher.download_body url target w = (Raise e, w1) ->
        Fetcher.download_file url target w
        = (Ok false,
           snd (Fetcher.print (Fetcher.Failed url target e) w1)))
  /\ (forall url target w r w1,
        Fetcher.get_response (Fetcher.download_url_of url) w = (Ok r, w1) ->
        400 <= Fetcher.status r < 600 ->
        Fetcher.download_file url target w
        = (Ok false,
           snd (Fetcher.print (Fetcher.Failed url target (HTTPError (Fetcher.status r))) w1)))
  /\ (forall url target w,
        Fetcher.network w (Fetcher.requests w)
          {| Fetcher.req_url := Fetcher.download_url_of url; Fetcher.req_params := [] |}
        = Fetcher.Unreachable ->
        fst (Fetcher.download_file url target w) = Ok false)
  /\ (forall target url w,
        Fetcher.files w !! target = None ->
        Fetcher.truthy_opt url = false ->
        Fetcher.ensure_file target url w
        = (Ok tt, snd (Fetcher.print (Fetcher.NoUrl target) w)))
  /\ (forall target url w, fst (Fetcher.ensure_file target url w) = Ok tt)
  /\ (forall w, fst (Fetcher.main w) = Ok tt).
Proof.
  split; [|split; [|split; [|split; [|split; [|split]]]]].
  - apply download_file_total.
  - intros url target w e w1 H.
    unfold Fetcher.download_file, try_except. rewrite H. reflexivity.
  - intros url target w r w1 H Hst.
    unfold Fetcher.download_file, try_except, Fetcher.download_body, bind at 1.
    rewrite H. unfold bind at 1, Fetcher.raise_for_status.
    replace (400 <=? Fetcher.status r) with true by (symmetry; apply Z.leb_le; lia).
    replace (Fetcher.status r <? 600) with true by (symmetry; apply Z.ltb_lt; lia).
    reflexivity.
  - intros url target w H.
    unfold Fetcher.download_file, try_except, Fetcher.download_body, bind at 1.
    unfold Fetcher.get_response, bind at 1, Fetcher.session_get.
    rewrite H. reflexivity.
  - intros target url w Hf Hu.
    unfold Fetcher.ensure_file, bind, Fetcher.exists_. rewrite Hf.
    destruct url as [u|]; [|reflexivity].
    rewrite Hu. reflexivity.
  - apply ensure_file_total.
  - intros w. unfold Fetcher.main, bind at 1, Fetcher.getenv.
    unfold bind at 1. unfold bind at 1.
    match goal with
    | |- context [Fetcher.ensure_file Fetcher.COMPACT_DB ?u w] =>
        pose proof (ensure_file_total Fetcher.COMPACT_DB u w) as H1;
        destruct (Fetcher.ensure_file Fetcher.COMPACT_DB u w) as [[[]|e1] w1]
    end; simpl in H1; [|discriminate].
    unfold bind at 1.
    pose proof (ensure_file_total Fetcher.FULL_DB (Fetcher.environ w !! "DATABASE_URL") w1) as H2.
    destruct (Fetcher.ensure_file Fetcher.FULL_DB (Fetcher.environ w !! "DATABASE_URL") w1)
      as [[[]|e2] w2]; simpl in H2; [|discriminate].
    unfold bind, Fetcher.exists_.
    destruct (negb _ && negb _); reflexivity.
Qed.

Lemma C9_soft_failures_witness :
  fst (Fetcher.download_file "https://example.org/db.json" "db.json" failing_world)
  = Ok false
  /\ fst (Fetcher.ensure_file "db.json" None failing_world) = Ok tt.
Proof.
  destruct C9_soft_failures as (_ & _ & Hstatus & _ & Hnone & _).
  split.
  - erewrite (Hstatus "https://example.org/db.json" "db.json" failing_world).
    + reflexivity.
    + reflexivity.
    + simpl. lia.
  - rewrite (Hnone "db.json" None failing_world); reflexivity.
Defined.

(** * Existing targets *)

(** C2, as the code has it. Both scripts leave an existing target alone.
    A run of the Compactor on an existing target leaves the files as they
    are, whatever its outcome; when the source exists as well it completes
    as a no-op that only prints the skip line, so the run that follows a
    completed run completes and changes no file.  [ensure_file] on an
    existing target completes, sends no request and changes no file. *)
Theorem C2_existing_target_untouched :
  (forall w t,
      Compactor.TARGET w = Some t ->
      Compactor.TARGET (snd (Compactor.main w)) = Some t
      /\ Compactor.SOURCE (snd (Compactor.main w)) = Compactor.SOURCE w)
  /\ (forall w f t,
        Compactor.SOURCE w = Some f ->
        Compactor.TARGET w = Some t ->
        Compactor.main w
        = (Ok tt,
           {| Compactor.SOURCE := Some f;
              Compactor.TARGET := Some t;
              Compactor.stdout := Compactor.stdout w ++ [Compactor.AlreadyExists] |}))
  /\ (forall w,
        fst (Compactor.main w) = Ok tt ->
        let w1 := snd (Compactor.main w) in
        fst (Compactor.main w1) = Ok tt
        /\ Compactor.TARGET (snd (Compactor.main w1)) = Compactor.TARGET w1
        /\ Compactor.SOURCE (snd (Compactor.main w1)) = Compactor.SOURCE w1)
  /\ (forall target url w,
        is_some (Fetcher.files w !! target) = true ->
        fst (Fetcher.ensure_file target url w) = Ok tt
        /\ Fetcher.requests (snd (Fetcher.ensure_file target url w)) = Fetcher.requests w
        /\ Fetcher.files (snd (Fetcher.ensure_file target url w)) = Fetcher.files w).
Proof.
  split; [|split; [|split]].
  - intros w t Ht. destruct (Compactor.SOURCE w) as [f|] eqn:Hs.
    + destruct (main_second_run w f t Hs Ht) as (_ & H1 & H2).
      rewrite H1, H2, Hs. auto.
    + rewrite (main_missing_source w Hs). simpl. auto.
  - intros w f t Hs Ht. rewrite (main_skip w f t Hs Ht). now rewrite Hs, Ht.
  - intros w Hok w1. subst w1.
    destruct (Compactor.SOURCE w) as [f|] eqn:Hs.
    2:{ rewrite (main_missing_source w Hs) in Hok. discriminate. }
    assert (exists t, Compactor.SOURCE (snd (Compactor.main w)) = Some f
                      /\ Compactor.TARGET (snd (Compactor.main w)) = Some t)
      as (t & Hs1 & Ht1).
    { destruct (Compactor.TARGET w) as [t|] eqn:Ht.
      - destruct (main_second_run w f t Hs Ht) as (_ & H1 & H2).
        exists t. rewrite H1, H2. auto.
      - destruct (main_generate w f Hs Ht) as (H1 & Hres).
        destruct (has_metadata f && drugs_ok (Compactor.at_drugs_item f)).
        + destruct Hres as (_ & Hsome).
          destruct (Compactor.TARGET (snd (Compactor.main w))) as [t|];
            [|discriminate].
          exists t. rewrite H1. auto.
        + destruct Hres as (e & He & _). rewrite He in Hok. discriminate. }
    destruct (main_second_run _ f t Hs1 Ht1) as (H1 & H2 & H3). auto.
  - intros target url w Hf.
    unfold Fetcher.ensure_file, bind, Fetcher.exists_.
    destruct (Fetcher.files w !! target); [|discriminate].
    repeat split.
Qed.

Lemma C2_existing_target_untouched_witness :
  fst (Compactor.main (snd (Compactor.main sample_world))) = Ok tt
  /\ Compactor.TARGET (snd (Compactor.main (snd (Compactor.main sample_world))))
     = Compactor.TARGET (snd (Compactor.main sample_world))
  /\ fst (Compactor.main
            {| Compactor.SOURCE := Compactor.SOURCE sample_world;
               Compactor.TARGET := Some [Compactor.OpenMetadata];
               Compactor.stdout := [] |}) = Ok tt.
Proof.
  destruct C2_existing_target_untouched as (_ & Hskip & Hagain & _).
  destruct (Hagain sample_world eq_refl) as (H1 & H2 & _).
  split; [exact H1|]. split; [exact H2|].
  erewrite (Hskip _ _ [Compactor.OpenMetadata]); reflexivity.
Defined.

(** C2 as stated fails: the target exists and the source does not, and the
    Compactor raises the not-found error instead of completing. *)
Lemma C2_existing_target_missing_source_raises :
  let w := {| Compactor.SOURCE := None;
              Compactor.TARGET := Some [Compactor.OpenMetadata; Compactor.CloseDoc];
              Compactor.stdout := [] |} in
  Compactor.TARGET w <> None
  /\ fst (Compactor.main w) = Raise FileNotFoundError
  /\ fst (Compactor.main w) <> Ok tt.
Proof. simpl. repeat split; discriminate. Qed.

(** * Further properties of the record trimming *)

Lemma dict_lookup_present d keys k :
  dict_lookup (present d keys) k = kept_in d keys k.
Proof.
  unfold kept_in, present.
  induction keys as [|k0 keys IH]; simpl; [reflexivity|].
  destruct (is_none (field d k0)) eqn:Hn; simpl.
  - rewrite IH. destruct (String.eqb k k0) eqn:Hk; simpl; [|reflexivity].
    apply String.eqb_eq in Hk. subst k0. rewrite Hn. simpl.
    now rewrite andb_false_r.
  - rewrite String.eqb_sym.
    destruct (String.eqb k k0) eqn:Hk; simpl.
    + apply String.eqb_eq in Hk. subst k0. now rewrite Hn.
    + exact IH.
Qed.

Lemma dict_lookup_set l k v k' :
  dict_lookup (dict_set l k v) k'
  = if String.eqb k k' then Some v else dict_lookup l k'.
Proof.
  induction l as [|[k0 v0] l IH]; simpl.
  - reflexivity.
  - destruct (String.eqb k0 k) eqn:H0; simpl.
    + apply String.eqb_eq in H0. subst k0.
      destruct (String.eqb k k'); reflexivity.
    + rewrite IH. destruct (String.eqb k0 k') eqn:H1; [|reflexivity].
      apply String.eqb_eq in H1. subst k0. now rewrite String.eqb_sym, H0.
Qed.

Lemma is_none_true v : is_none v = true -> v = VNone.
Proof. destruct v; try discriminate; reflexivity. Qed.

Lemma present_ext d d' keys :
  (forall k, In k keys -> field d' k = field d k) ->
  present d' keys = present d keys.
Proof.
  intros H. unfold present.
  induction keys as [|k keys IH]; simpl; [reflexivity|].
  rewrite (H k (or_introl eq_refl)).
  rewrite IH by (intros k' Hk'; apply H; now right). reflexivity.
Qed.

Lemma field_present d keys k :
  In k keys -> field (present d keys) k = field d k.
Proof.
  intros Hin. unfold field at 1, field_or. rewrite dict_lookup_present.
  unfold kept_in.
  replace (existsb (String.eqb k) keys) with true.
  2:{ symmetry. apply existsb_exists. exists k. split; [exact Hin|apply String.eqb_refl]. }
  simpl. destruct (is_none (field d k)) eqn:Hn; simpl; [|reflexivity].
  symmetry. now apply is_none_true.
Qed.

Lemma present_present d keys : present (present d keys) keys = present d keys.
Proof. apply present_ext. intros k Hk. now apply field_present. Qed.

(** X1. On a mapping, [simplify_dosing] keeps a key exactly when it is one
    of the six allowed keys with a value other than null in the source, and
    then with the source's value; [openfda_full] is kept exactly when the
    source's is a mapping, reduced in the same way to its own six keys.
    Nothing else is in the result. *)
Theorem X1_simplify_dosing_lookup d :
  exists out,
    simplify_dosing (VDict d) = Ok (VDict out)
    /\ (forall k, k <> "openfda_full" ->
                  dict_lookup out k = kept_in d dosing_keep_keys k)
    /\ (forall o, field d "openfda_full" = VDict o ->
          exists inner,
            dict_lookup out "openfda_full" = Some (VDict inner)
            /\ forall k, dict_lookup inner k = kept_in o openfda_keep_keys k)
    /\ (is_dict (field d "openfda_full") = false ->
        dict_lookup out "openfda_full" = None)
    /\ (forall k v, dict_lookup out k = Some v -> v <> VNone).
Proof.
  rewrite simplify_dosing_eq. unfold dosing_of.
  destruct (field d "openfda_full") as [| | | | | |o] eqn:Ho;
    eexists; (split; [reflexivity|]).
  1-6: split; [intros k _; apply dict_lookup_present|];
       (split; [discriminate|]);
       (split; [intros _; rewrite dict_lookup_present; reflexivity|]);
       intros k v; rewrite dict_lookup_present; unfold kept_in;
       destruct (existsb _ _ && _) eqn:E; [|discriminate];
       intros [= <-]; apply andb_prop in E as [_ E];
       destruct (field d k); try discriminate.
  split; [|split; [|split]].
  - intros k Hk. rewrite dict_lookup_set.
    destruct (String.eqb "openfda_full" k) eqn:E.
    + apply String.eqb_eq in E. now elim Hk.
    + apply dict_lookup_present.
  - intros o' [= <-]. exists (present o openfda_keep_keys). split.
    + rewrite dict_lookup_set. reflexivity.
    + intros k. apply dict_lookup_present.
  - discriminate.
  - intros k v. rewrite dict_lookup_set.
    destruct (String.eqb "openfda_full" k).
    + intros [= <-]. discriminate.
    + rewrite dict_lookup_present. unfold kept_in.
      destruct (existsb _ _ && _) eqn:E; [|discriminate].
      intros [= <-]. apply andb_prop in E as [_ E].
      destruct (field d k); try discriminate.
Qed.

Lemma X1_simplify_dosing_lookup_witness :
  exists out,
    simplify_dosing
      (VDict [("source", VStr "label"); ("notes", VStr "x");
              ("frequency", VNone)])
    = Ok (VDict out)
    /\ dict_lookup out "openfda_full" = None.
Proof.
  destruct (X1_simplify_dosing_lookup
              [("source", VStr "label"); ("notes", VStr "x"); ("frequency", VNone)])
    as (out & Hrun & _ & _ & Hnone & _).
  exists out. split; [exact Hrun|]. apply Hnone. reflexivity.
Defined.

Lemma dosing_of_idem v : dosing_of (dosing_of v) = dosing_of v.
Proof.
  destruct v; try reflexivity.
  unfold dosing_of at 2 3.
  destruct (field d "openfda_full") as [| | | | | |o] eqn:Ho.
  1-6: unfold dosing_of;
       replace (field (present d dosing_keep_keys) "openfda_full") with VNone
         by (unfold field at 1, field_or; rewrite dict_lookup_present; reflexivity);
       rewrite present_present; reflexivity.
  unfold dosing_of.
  replace (field (dict_set (present d dosing_keep_keys) "openfda_full"
                           (VDict (present o openfda_keep_keys))) "openfda_full")
    with (VDict (present o openfda_keep_keys))
    by (unfold field, field_or; now rewrite dict_lookup_set).
  rewrite present_present. f_equal. f_equal.
  apply present_ext. intros k Hk.
  unfold field at 1, field_or. rewrite dict_lookup_set.
  destruct (String.eqb "openfda_full" k) eqn:E.
  - apply String.eqb_eq in E. subst k. simpl in Hk.
    repeat (destruct Hk as [Hk|Hk]; [discriminate|]). contradiction.
  - fold (field_or (present d dosing_keep_keys) k VNone).
    fold (field (present d dosing_keep_keys) k). now apply field_present.
Qed.

(** X2. [simplify_dosing] is idempotent: simplifying a result again
    returns it unchanged. *)
Theorem X2_simplify_dosing_idempotent v out :
  simplify_dosing v = Ok out -> simplify_dosing out = Ok out.
Proof.
  rewrite simplify_dosing_eq. intros [= <-].
  rewrite simplify_dosing_eq. now rewrite dosing_of_idem.
Qed.

Lemma X2_simplify_dosing_idempotent_witness :
  simplify_dosing
    (VDict [("source", VStr "label");
            ("openfda_full", VDict [("route", VStr "oral")])])
  = Ok (VDict [("source", VStr "label");
               ("openfda_full", VDict [("route", VStr "oral")])]).
Proof.
  apply (X2_simplify_dosing_idempotent
           (VDict [("junk", VInt 1); ("source", VStr "label");
                   ("frequency", VNone);
                   ("openfda_full", VDict [("route", VStr "oral"); ("x", VNone)])])).
  reflexivity.
Defined.

Lemma flat_map_idem {A} (f : A -> list A) l :
  (forall x y, In x l -> In y (f x) -> f y = [y]) ->
  flat_map f (flat_map f l) = flat_map f l.
Proof.
  intros H. induction l as [|x l IH]; simpl; [reflexivity|].
  rewrite flat_map_app.
  rewrite IH by (intros x' y Hx'; apply H; now right).
  f_equal.
  assert (Hx : forall y, In y (f x) -> f y = [y])
    by (intros y; apply H; now left).
  induction (f x) as [|y ys IHy]; simpl; [reflexivity|].
  rewrite (Hx y (or_introl eq_refl)). simpl. f_equal.
  apply IHy. intros y' Hy'. apply Hx. now right.
Qed.

Lemma interaction_entry_fixed x y :
  In y (interaction_entry x) -> interaction_entry y = [y].
Proof.
  destruct x; simpl; try contradiction.
  intros [<-|[]]. reflexivity.
Qed.

Lemma dosage_entry_fixed x y :
  In y (dosage_entry x) -> dosage_entry y = [y].
Proof.
  destruct x; simpl; try contradiction.
  intros [<-|[]]. reflexivity.
Qed.

Lemma property_entry_fixed x y :
  In y (property_entry x) -> property_entry y = [y] /\ kind_hashable y = true.
Proof.
  destruct x; simpl; try contradiction.
  unfold field, field_or.
  destruct (match dict_lookup d "kind" with Some v => v | None => VNone end)
    eqn:Hk; simpl; try contradiction.
  match goal with
  | |- In _ (if ?c then _ else _) -> _ => destruct c eqn:He
  end; simpl; [|contradiction].
  intros [<-|[]]. unfold reduced3, field, field_or. rewrite Hk.
  simpl. rewrite He. split; reflexivity.
Qed.

(** X3. [simplify_interactions] and [simplify_dosages] are idempotent:
    applied to their own result, they return it unchanged. *)
Theorem X3_interactions_dosages_idempotent :
  (forall v out, simplify_interactions v = Ok out -> simplify_interactions out = Ok out)
  /\ (forall v out, simplify_dosages v = Ok out -> simplify_dosages out = Ok out).
Proof.
  split; intros v out.
  - rewrite simplify_interactions_eq. intros [= <-].
    rewrite simplify_interactions_eq. simpl entries.
    rewrite flat_map_idem; [reflexivity|].
    intros x y _. apply interaction_entry_fixed.
  - rewrite simplify_dosages_eq. intros [= <-].
    rewrite simplify_dosages_eq. simpl entries.
    rewrite flat_map_idem; [reflexivity|].
    intros x y _. apply dosage_entry_fixed.
Qed.

Lemma X3_interactions_dosages_idempotent_witness :
  simplify_interactions
    (VList [VDict [("drugbank_id", VStr "DB01"); ("name", VStr "A");
                   ("description", VNone)]])
  = Ok (VList [VDict [("drugbank_id", VStr "DB01"); ("name", VStr "A");
                      ("description", VNone)]]).
Proof.
  apply (proj1 X3_interactions_dosages_idempotent
           (VList [VInt 7; VDict [("name", VStr "A"); ("drugbank_id", VStr "DB01");
                                  ("extra", VBool true)]])).
  reflexivity.
Defined.

Lemma py_for_properties l :
  simplify_properties (VList l)
  = if forallb kind_hashable l
    then Ok (VList (flat_map property_entry l))
    else Raise TypeError.
Proof.
  destruct (forallb kind_hashable l) eqn:H.
  - apply (simplify_properties_eq (VList l) H).
  - unfold simplify_properties.
    match goal with |- context [py_for l ?b] => set (body := b) end.
    assert (Hfor : py_for l body = Raise TypeError).
    { induction l as [|x l IH]; simpl in H; [discriminate|].
      simpl. destruct (kind_hashable x) eqn:Hx; simpl in H.
      - rewrite (IH H).
        assert (Hb : exists ys, body x = Ok ys).
        { destruct x; try (eexists; reflexivity).
          unfold body. cbn [is_dict negb py_get py_get_default rbind].
          unfold kind_hashable, field, field_or in Hx.
          destruct (match dict_lookup d "kind" with Some v => v | None => VNone end);
            try discriminate; cbn [py_in_set rbind];
            try (eexists; reflexivity).
          destruct (existsb _ _); eexists; reflexivity. }
        destruct Hb as (ys & ->). reflexivity.
      - destruct x; try discriminate. unfold kind_hashable in Hx.
        subst body. cbn [is_dict negb py_get py_get_default rbind].
        unfold field, field_or in Hx.
        destruct (match dict_lookup d "kind" with Some v => v | None => VNone end);
          try discriminate; reflexivity. }
    now rewrite Hfor.
Qed.

Lemma simplify_properties_cases v :
  (simplify_properties v = Raise TypeError <->
   forallb kind_hashable (entries v) = false)
  /\ ((exists out, simplify_properties v = Ok out) <->
      forallb kind_hashable (entries v) = true).
Proof.
  split.
  - destruct v; cbn [entries]; try (split; discriminate).
    rewrite py_for_properties. destruct (forallb kind_hashable l); split;
      try discriminate; reflexivity.
  - destruct v; cbn [entries];
      try (split; [reflexivity|intros _; eexists; reflexivity]).
    rewrite py_for_properties. destruct (forallb kind_hashable l); split;
      try discriminate; try reflexivity.
    + intros _. eexists. reflexivity.
    + intros (out & H). discriminate.
Qed.

(** X4. [simplify_properties] fails in one way only: it raises [TypeError]
    exactly when some mapping entry of the list has a list or a mapping as
    [kind]; in every other case it returns. *)
Theorem X4_simplify_properties_failure v :
  (simplify_properties v = Raise TypeError <->
   forallb kind_hashable (entries v) = false)
  /\ (forall e, simplify_properties v = Raise e -> e = TypeError)
  /\ ((exists out, simplify_properties v = Ok out) <->
      forallb kind_hashable (entries v) = true).
Proof.
  split; [|split].
  - apply simplify_properties_cases.
  - apply simplify_properties_raises.
  - apply simplify_properties_cases.
Qed.

Lemma X4_simplify_properties_failure_witness :
  simplify_properties
    (VList [VDict [("kind", VStr "pKa")]; VDict [("kind", VDict [])]])
  = Raise TypeError.
Proof.
  apply (proj1 (X4_simplify_properties_failure
                  (VList [VDict [("kind", VStr "pKa")]; VDict [("kind", VDict [])]]))).
  reflexivity.
Defined.

Lemma flat_map_property_idem l :
  flat_map property_entry (flat_map property_entry l) = flat_map property_entry l
  /\ forallb kind_hashable (flat_map property_entry l) = true.
Proof.
  split.
  - apply flat_map_idem. intros x y _ Hy. now apply (property_entry_fixed x y).
  - apply forallb_forall. intros y Hy. apply in_flat_map in Hy as (x & _ & Hy).
    now apply (property_entry_fixed x y).
Qed.

Lemma simplify_properties_idem v out :
  simplify_properties v = Ok out -> simplify_properties out = Ok out.
Proof.
  destruct v; try (intros [= <-]; reflexivity).
  rewrite py_for_properties. destruct (forallb kind_hashable l); [|discriminate].
  intros [= <-]. rewrite py_for_properties.
  destruct (flat_map_property_idem l) as (H1 & H2). now rewrite H2, H1.
Qed.

(** X5. [simplify_properties] is idempotent: applied to a result of its
    own, it returns it unchanged (and does not raise). *)
Theorem X5_simplify_properties_idempotent v out :
  simplify_properties v = Ok out -> simplify_properties out = Ok out.
Proof. apply simplify_properties_idem. Qed.

Lemma X5_simplify_properties_idempotent_witness :
  simplify_properties
    (VList [VDict [("kind", VStr "logP"); ("value", VStr "1.2"); ("unit", VNone)]])
  = Ok (VList [VDict [("kind", VStr "logP"); ("value", VStr "1.2"); ("unit", VNone)]]).
Proof.
  apply (X5_simplify_properties_idempotent
           (VList [VDict [("value", VStr "1.2"); ("kind", VStr "logP")];
                   VDict [("kind", VStr "Color")]])).
  reflexivity.
Defined.

Lemma first_nonempty_some d keys label :
  first_nonempty d keys = Some label ->
  truthy label = true
  /\ exists k, In k keys /\ dict_lookup d k = Some label.
Proof.
  induction keys as [|k keys IH]; simpl; [discriminate|].
  destruct (truthy (field d k)) eqn:Ht.
  - intros [= <-]. split; [exact Ht|]. exists k. split; [now left|].
    unfold field, field_or in *. destruct (dict_lookup d k); [reflexivity|discriminate].
  - intros H. destruct (IH H) as (Hl & k' & Hin & Hk'). split; [exact Hl|].
    exists k'. split; [now right|exact Hk'].
Qed.

(** X6. Every label [simplify_categories] puts out is either a plain
    string of the input list, or a true (non-empty) value that a mapping of
    the list holds under [category], [mesh_id] or [name]; and the output is
    never longer than the input. *)
Theorem X6_simplify_categories_labels l out :
  simplify_categories (VList l) = Ok (VList out) ->
  (forall y, In y out ->
     (is_str y = true /\ In y l)
     \/ (truthy y = true
         /\ exists d k, In (VDict d) l /\ In k category_keys
                        /\ dict_lookup d k = Some y))
  /\ (length out <= length l)%nat.
Proof.
  rewrite (simplify_categories_eq (VList l)). simpl entries. intros [= <-].
  split.
  - intros y Hy. apply in_flat_map in Hy as (x & Hx & Hy).
    destruct x; cbn [category_labels] in Hy; try (destruct Hy; fail).
    + destruct Hy as [<-|[]]. left. split; [reflexivity|exact Hx].
    + destruct (first_nonempty d ["category"; "mesh_id"; "name"]) as [label|] eqn:Hl;
        [|contradiction].
      destruct Hy as [<-|[]]. right.
      destruct (first_nonempty_some _ _ _ Hl) as (Ht & k & Hk & Hlook).
      split; [exact Ht|]. now exists d, k.
  - induction l as [|x l IH]; simpl; [lia|].
    rewrite length_app.
    assert (length (category_labels x) <= 1)%nat.
    { destruct x; cbn [category_labels length]; try lia.
      destruct (first_nonempty d ["category"; "mesh_id"; "name"]);
        cbn [length]; lia. }
    lia.
Qed.

Lemma X6_simplify_categories_labels_witness :
  (length [VStr ""; VStr "Analgesics"] <= length [VStr ""; VDict [("name", VStr "Analgesics")]; VDict [("name", VStr "")]])%nat.
Proof.
  apply (X6_simplify_categories_labels
           [VStr ""; VDict [("name", VStr "Analgesics")]; VDict [("name", VStr "")]]
           [VStr ""; VStr "Analgesics"]).
  reflexivity.
Defined.

Lemma dict_lookup_filter (keep : string -> bool) d k :
  keep k = true ->
  dict_lookup (List.filter (fun kv => keep (fst kv)) d) k = dict_lookup d k.
Proof.
  intros Hk. induction d as [|[k0 v0] d IH]; simpl; [reflexivity|].
  destruct (keep k0) eqn:H0; simpl.
  - now rewrite IH.
  - rewrite IH. destruct (String.eqb k0 k) eqn:E; [|reflexivity].
    apply String.eqb_eq in E. subst k0. congruence.
Qed.

(** X7. [trim_drug] reads the fifteen retained keys only: dropping every
    other field from the record first changes neither its result nor its
    failure. *)
Theorem X7_trim_drug_ignores_other_fields d :
  trim_drug (VDict (List.filter (fun kv => retained (fst kv)) d))
  = trim_drug (VDict d).
Proof.
  rewrite !trim_drug_dict. unfold trimmed, field, field_or.
  rewrite !(dict_lookup_filter retained) by reflexivity.
  reflexivity.
Qed.

(** X8. A field that [trim_drug] copies ([name], [description], [type],
    [mechanism_of_action], [half_life], [absorption], [metabolism],
    [groups], [food_interactions]) comes out with the very value the source
    has for it, whatever that value is: a [groups] that is present and null
    stays null, the empty sequence is for a missing key only. *)
Theorem X8_trim_drug_copies_verbatim d out k v :
  trim_drug (VDict d) = Ok (VDict out) ->
  In k verbatim_fields ->
  dict_lookup d k = Some v ->
  dict_lookup out k = Some v.
Proof.
  intros H Hk Hv. apply trim_drug_returns in H as (ids & props & _ & _ & Hout).
  injection Hout as ->.
  unfold verbatim_fields, copied_fields in Hk. simpl in Hk.
  in_cases Hk; simpl; unfold field, field_or; now rewrite Hv.
Qed.

Lemma X8_trim_drug_copies_verbatim_witness :
  dict_lookup
    [("name", VNone);
     ("drugbank_ids", VDict [("primary", VNone); ("secondary", VList [])]);
     ("description", VNone); ("type", VNone); ("groups", VNone);
     ("categories", VList []); ("mechanism_of_action", VNone);
     ("half_life", VNone); ("absorption", VNone); ("metabolism", VNone);
     ("food_interactions", VList []); ("drug_interactions", VList []);
     ("experimental_properties", VList []); ("dosages", VList []);
     ("dosing_info", VDict [])]
    "groups"
  = Some VNone.
Proof.
  refine (X8_trim_drug_copies_verbatim [("groups", VNone)] _ "groups" VNone _ _ _).
  - reflexivity.
  - simpl. tauto.
  - reflexivity.
Defined.

(** X9. When [trim_drug] fails and how: on a value that is no mapping, and
    on a record whose [drugbank_ids] is present and no mapping, it raises
    [AttributeError]; otherwise, when an entry of experimental_properties
    has a list or a mapping as [kind], it raises [TypeError]; in every
    other case it returns. *)
Theorem X9_trim_drug_failure :
  (forall v, is_dict v = false -> trim_drug v = Raise AttributeError)
  /\ (forall d,
        trim_drug (VDict d) = Raise AttributeError <->
        is_dict (field_or d "drugbank_ids" (VDict [])) = false)
  /\ (forall d,
        trim_drug (VDict d) = Raise TypeError <->
        is_dict (field_or d "drugbank_ids" (VDict [])) = true
        /\ forallb kind_hashable (entries (field d "experimental_properties")) = false)
  /\ (forall d, (exists out, trim_drug (VDict d) = Ok out) <-> drug_shaped d = true).
Proof.
  split; [|split; [|split]].
  - intros v H. destruct v; try reflexivity. discriminate.
  - intros d. rewrite trim_drug_dict.
    destruct (field_or d "drugbank_ids" (VDict [])); simpl;
      try (split; reflexivity).
    destruct (simplify_properties (field d "experimental_properties")) as [p|e] eqn:Hp;
      simpl; split; try discriminate.
    intros [= ->]. apply simplify_properties_raises in Hp. discriminate.
  - intros d. rewrite trim_drug_dict.
    destruct (field_or d "drugbank_ids" (VDict [])); simpl;
      try (split; [discriminate|intros [? _]; discriminate]).
    destruct (simplify_properties_cases (field d "experimental_properties"))
      as (Hx & _).
    destruct (simplify_properties (field d "experimental_properties")) as [p|e];
      simpl; split.
    + discriminate.
    + intros [_ H]. apply Hx in H. discriminate.
    + intros [= ->]. split; [reflexivity|]. now apply Hx.
    + intros [_ H]. apply Hx in H. now rewrite H.
  - intros d. unfold drug_shaped. rewrite trim_drug_dict.
    destruct (simplify_properties_cases (field d "experimental_properties"))
      as (_ & Hx).
    destruct (field_or d "drugbank_ids" (VDict [])); simpl;
      try (split; [intros [? ?]; discriminate|discriminate]).
    rewrite <- Hx.
    destruct (simplify_properties (field d "experimental_properties")) as [p|e];
      simpl; split.
    + intros _. now exists p.
    + intros _. eexists. reflexivity.
    + intros [? ?]. discriminate.
    + intros [? ?]. discriminate.
Qed.

Lemma X9_trim_drug_failure_witness :
  trim_drug (VStr "Aspirin") = Raise AttributeError
  /\ trim_drug (VDict [("drugbank_ids", VStr "DB00945")]) = Raise AttributeError
  /\ trim_drug (VDict [("experimental_properties", VList [VDict [("kind", VList [])]])])
     = Raise TypeError.
Proof.
  destruct X9_trim_drug_failure as (H1 & H2 & H3 & _).
  split; [apply H1; reflexivity|].
  split; [apply H2; reflexivity|].
  apply H3. split; reflexivity.
Defined.

Lemma trimmed_fields d ids props o :
  VDict o = trimmed d ids props ->
  field o "name" = field d "name"
  /\ field_or o "drugbank_ids" (VDict [])
     = VDict [("primary", field ids "primary");
              ("secondary", field_or ids "secondary" (VList []))]
  /\ field o "description" = field d "description"
  /\ field o "type" = field d "type"
  /\ field_or o "groups" (VList []) = field_or d "groups" (VList [])
  /\ field o "categories"
     = VList (flat_map category_labels (entries (field d "categories")))
  /\ field o "mechanism_of_action" = field d "mechanism_of_action"
  /\ field o "half_life" = field d "half_life"
  /\ field o "absorption" = field d "absorption"
  /\ field o "metabolism" = field d "metabolism"
  /\ field_or o "food_interactions" (VList [])
     = field_or d "food_interactions" (VList [])
  /\ field o "drug_interactions"
     = VList (flat_map interaction_entry (entries (field d "drug_interactions")))
  /\ field o "experimental_properties" = props
  /\ field o "dosages"
     = VList (flat_map dosage_entry (entries (field d "dosages")))
  /\ field o "dosing_info" = dosing_of (field d "dosing_info").
Proof. intros [= ->]. repeat split. Qed.

Lemma category_labels_strings l :
  forallb is_str l = true -> flat_map category_labels l = l.
Proof.
  induction l as [|x l IH]; simpl; [reflexivity|].
  intros H. apply andb_prop in H as [Hx Hl].
  destruct x; try discriminate. simpl. now rewrite IH.
Qed.

(** X10. Trimming a trimmed record changes nothing, provided its category
    labels are plain strings: [trim_drug] applied to its own result returns
    that result. *)
Theorem X10_trim_drug_idempotent d o :
  trim_drug (VDict d) = Ok (VDict o) ->
  forallb is_str (entries (field o "categories")) = true ->
  trim_drug (VDict o) = Ok (VDict o).
Proof.
  intros H Hstr.
  apply trim_drug_returns in H as (ids & props & _ & Hprops & Hout).
  destruct (trimmed_fields d ids props o Hout)
    as (F1 & F2 & F3 & F4 & F5 & F6 & F7 & F8 & F9 & F10 & F11 & F12 & F13 & F14 & F15).
  rewrite trim_drug_dict, F2, F13, (simplify_properties_idem _ _ Hprops).
  cbn [rbind]. rewrite Hout. unfold trimmed.
  rewrite F1, F3, F4, F5, F7, F8, F9, F10, F11, F12, F14, F15.
  rewrite F6 in Hstr |- *. simpl entries in *.
  rewrite (category_labels_strings _ Hstr).
  rewrite dosing_of_idem.
  rewrite (flat_map_idem interaction_entry)
    by (intros x y _; apply interaction_entry_fixed).
  rewrite (flat_map_idem dosage_entry)
    by (intros x y _; apply dosage_entry_fixed).
  reflexivity.
Qed.

Lemma X10_trim_drug_idempotent_witness :
  exists o,
    trim_drug (VDict [("name", VStr "Aspirin");
                      ("categories", VList [VDict [("category", VStr "NSAID")]]);
                      ("price", VInt 3)])
    = Ok (VDict o)
    /\ trim_drug (VDict o) = Ok (VDict o).
Proof.
  eexists. split; [reflexivity|].
  apply (X10_trim_drug_idempotent
           [("name", VStr "Aspirin");
            ("categories", VList [VDict [("category", VStr "NSAID")]]);
            ("price", VInt 3)]); reflexivity.
Defined.

(** * Further properties of the Compactor's entry point *)

Lemma write_drugs_run drugs :
  forall first w t0,
    Compactor.TARGET w = Some t0 ->
    snd (Compactor.write_drugs drugs first w)
    = {| Compactor.SOURCE := Compactor.SOURCE w;
         Compactor.TARGET := Some (t0 ++ dump_records first (trimmed_records drugs));
         Compactor.stdout := Compactor.stdout w |}.
Proof.
  induction drugs as [| |drug rest IH]; intros first w t0 Ht.
  - simpl. rewrite app_nil_r, <- Ht. now destruct w.
  - simpl. rewrite app_nil_r, <- Ht. now destruct w.
  - simpl. unfold bind at 1, lift.
    destruct (trim_drug drug) as [t|e].
    + unfold bind.
      destruct first; simpl;
        match goal with
        | |- context [Compactor.write_drugs rest false ?w1] =>
            destruct (Compactor.write_drugs rest false w1) as [[[]|e] w2] eqn:Hrun;
            pose proof (IH false w1) as IH1; rewrite Hrun in IH1
        end; simpl in *; rewrite Ht in IH1;
        erewrite IH1 by reflexivity; simpl; now rewrite <- ?app_assoc.
    + simpl. rewrite app_nil_r, <- Ht. now destruct w.
Qed.

Lemma trimmed_records_all drugs :
  drugs_ok drugs = true ->
  Forall2 (fun drug t => trim_drug drug = Ok t)
          (items_list drugs) (trimmed_records drugs).
Proof.
  induction drugs as [| |drug rest IH]; simpl; try constructor; try discriminate.
  unfold trims. destruct (trim_drug drug) as [t|e] eqn:Ht; simpl; [|discriminate].
  intros H. constructor; [exact Ht|now apply IH].
Qed.

(** X11. A completed generation writes one well-formed text: the opening,
    the metadata dumped as it was read, the array opening, the trimmed
    records in the order of the source, separated by commas with none
    before the first and none after the last, and the closing; every source
    record gives exactly one trimmed record; the source is left as it was;
    and the two progress lines are printed. *)
Theorem X11_main_writes_document w f m others :
  Compactor.SOURCE w = Some f ->
  Compactor.TARGET w = None ->
  Compactor.at_metadata f = Item m others ->
  drugs_ok (Compactor.at_drugs_item f) = true ->
  Compactor.main w
  = (Ok tt,
     {| Compactor.SOURCE := Some f;
        Compactor.TARGET :=
          Some ([Compactor.OpenMetadata; Compactor.Dump m; Compactor.OpenDrugs]
                  ++ dump_records true (trimmed_records (Compactor.at_drugs_item f))
                  ++ [Compactor.CloseDoc]);
        Compactor.stdout :=
          Compactor.stdout w ++ [Compactor.Reading; Compactor.Wrote] |})
  /\ Forall2 (fun drug t => trim_drug drug = Ok t)
             (items_list (Compactor.at_drugs_item f))
             (trimmed_records (Compactor.at_drugs_item f)).
Proof.
  intros Hs Ht Hm Hok. split; [|now apply trimmed_records_all].
  destruct w as [src tgt out], f as [md dr]. simpl in *. subst.
  run_main.
  match goal with
  | |- context [Compactor.write_drugs dr true ?w1] =>
      pose proof (write_drugs_run dr true w1 _ eq_refl) as Hrun;
      destruct (write_drugs_spec dr true w1) as (_ & _ & Hres);
      destruct (Compactor.write_drugs dr true w1) as [[[]|e] w2]
  end; rewrite Hok in Hres; simpl in Hres, Hrun.
  - subst w2. simpl. now rewrite <- !app_assoc.
  - discriminate.
Qed.

Lemma X11_main_writes_document_witness :
  Compactor.TARGET (snd (Compactor.main sample_world))
  = Some [Compactor.OpenMetadata; Compactor.Dump (VDict [("version", VInt 5)]);
          Compactor.OpenDrugs;
          Compactor.Dump
            (VDict
               [("name", VStr "Aspirin");
                ("drugbank_ids", VDict [("primary", VNone); ("secondary", VList [])]);
                ("description", VNone); ("type", VNone); ("groups", VList []);
                ("categories", VList []); ("mechanism_of_action", VNone);
                ("half_life", VNone); ("absorption", VNone); ("metabolism", VNone);
                ("food_interactions", VList []); ("drug_interactions", VList []);
                ("experimental_properties", VList []); ("dosages", VList []);
                ("dosing_info", VDict [])]);
          Compactor.CloseDoc].
Proof.
  destruct (X11_main_writes_document sample_world _ _ _ eq_refl eq_refl eq_refl eq_refl)
    as (Hrun & _).
  rewrite Hrun. reflexivity.
Defined.

Lemma dump_records_open records :
  forall first, ~ In Compactor.CloseDoc (dump_records first records).
Proof.
  induction records as [|t l IH]; intros b; simpl; [tauto|].
  destruct b; simpl; intros H.
  - destruct H as [H|H]; [discriminate|]. now apply (IH false).
  - destruct H as [H|[H|H]]; try discriminate. now apply (IH false).
Qed.

(** X12. A generation that fails after the metadata was read (the stream
    of drugs breaks, or a record does not trim) leaves the target in place
    with what was written so far and without the closing; the next run
    finds a target, completes, and leaves that partial file as it is. *)
Theorem X12_main_failure_leaves_partial_target w f m others :
  Compactor.SOURCE w = Some f ->
  Compactor.TARGET w = None ->
  Compactor.at_metadata f = Item m others ->
  drugs_ok (Compactor.at_drugs_item f) = false ->
  let partial :=
    [Compactor.OpenMetadata; Compactor.Dump m; Compactor.OpenDrugs]
      ++ dump_records true (trimmed_records (Compactor.at_drugs_item f)) in
  let w1 := snd (Compactor.main w) in
  (exists e, fst (Compactor.main w) = Raise e)
  /\ Compactor.TARGET w1 = Some partial
  /\ ~ In Compactor.CloseDoc partial
  /\ fst (Compactor.main w1) = Ok tt
  /\ Compactor.TARGET (snd (Compactor.main w1)) = Some partial.
Proof.
  intros Hs Ht Hm Hok partial w1.
  assert (Hrun : (exists e, fst (Compactor.main w) = Raise e)
                 /\ Compactor.SOURCE w1 = Some f
                 /\ Compactor.TARGET w1 = Some partial).
  { subst w1 partial. destruct w as [src tgt out], f as [md dr]. simpl in *. subst.
    run_main.
    match goal with
    | |- context [Compactor.write_drugs dr true ?w0] =>
        pose proof (write_drugs_run dr true w0 _ eq_refl) as Hrun;
        destruct (write_drugs_spec dr true w0) as (_ & _ & Hres);
        destruct (Compactor.write_drugs dr true w0) as [[[]|e] w2]
    end; rewrite Hok in Hres; simpl in Hres, Hrun.
    - destruct Hres as (e & He & _). discriminate.
    - subst w2. simpl. split; [now exists e|]. split; reflexivity. }
  destruct Hrun as (Hraise & Hs1 & Ht1).
  split; [exact Hraise|]. split; [exact Ht1|]. split.
  - subst partial. simpl. intros [H|[H|[H|H]]]; try discriminate.
    now apply dump_records_open in H.
  - destruct (main_second_run w1 f partial Hs1 Ht1) as (H1 & _ & H3).
    split; [exact H1|]. now rewrite H3.
Qed.

Lemma X12_main_failure_leaves_partial_target_witness :
  let w := {| Compactor.SOURCE :=
                Some {| Compactor.at_metadata := Item (VDict []) Done;
                        Compactor.at_drugs_item :=
                          Item (VDict [("name", VStr "A")]) Broken |};
              Compactor.TARGET := None;
              Compactor.stdout := [] |} in
  fst (Compactor.main (snd (Compactor.main w))) = Ok tt.
Proof.
  intros w.
  exact (proj1 (proj2 (proj2 (proj2
           (X12_main_failure_leaves_partial_target w _ _ _
              eq_refl eq_refl eq_refl eq_refl))))).
Defined.

(** X13. When the source yields no [metadata] item, [main] fails before it
    opens the target: it raises [StopIteration] when the parser ends
    without one and the parse error when the text is malformed, no target
    file is created, and only the first progress line is printed. *)
Theorem X13_main_no_metadata_creates_nothing w f :
  Compactor.SOURCE w = Some f ->
  Compactor.TARGET w = None ->
  has_metadata f = false ->
  fst (Compactor.main w)
  = Raise (match Compactor.at_metadata f with
           | Broken => JSONError
           | _ => StopIteration
           end)
  /\ Compactor.TARGET (snd (Compactor.main w)) = None
  /\ Compactor.SOURCE (snd (Compactor.main w)) = Some f
  /\ Compactor.stdout (snd (Compactor.main w))
     = Compactor.stdout w ++ [Compactor.Reading].
Proof.
  destruct w as [src tgt out], f as [md dr]. unfold has_metadata. simpl.
  intros -> -> Hm. destruct md; try discriminate; run_main; repeat split.
Qed.

Lemma X13_main_no_metadata_creates_nothing_witness :
  let w := {| Compactor.SOURCE :=
                Some (Compactor.json_file_of (VList [VInt 1]));
              Compactor.TARGET := None;
              Compactor.stdout := [] |} in
  Compactor.TARGET (snd (Compactor.main w)) = None.
Proof.
  intros w.
  exact (proj1 (proj2 (X13_main_no_metadata_creates_nothing w _
                         eq_refl eq_refl eq_refl))).
Defined.

(** X14. [main] never changes the source file, whatever happens; and when
    the source is missing it changes nothing at all: no file, no printed
    line. *)
Theorem X14_main_preserves_source w :
  Compactor.SOURCE (snd (Compactor.main w)) = Compactor.SOURCE w
  /\ (Compactor.SOURCE w = None -> snd (Compactor.main w) = w).
Proof.
  split.
  - destruct (Compactor.SOURCE w) as [f|] eqn:Hs.
    + destruct (Compactor.TARGET w) as [t|] eqn:Ht.
      * destruct (main_second_run w f t Hs Ht) as (_ & H & _). now rewrite H.
      * destruct (main_generate w f Hs Ht) as (H & _). now rewrite H.
    + now rewrite (main_missing_source w Hs).
  - intros Hs. now rewrite (main_missing_source w Hs).
Qed.

Lemma X14_main_preserves_source_witness :
  let w := {| Compactor.SOURCE := None;
              Compactor.TARGET := Some [Compactor.OpenMetadata];
              Compactor.stdout := [] |} in
  snd (Compactor.main w) = w.
Proof.
  intros w. apply (proj2 (X14_main_preserves_source w)). reflexivity.
Defined.

(** * Further properties of the Fetcher *)

Lemma str_cons x (a b : string) :
  String.append (String x a) b = String x (String.append a b).
Proof. reflexivity. Qed.

Lemma str_nil (b : string) : String.append "" b = b.
Proof. reflexivity. Qed.

Lemma str_append_assoc (a b c : string) :
  String.append (String.append a b) c = String.append a (String.append b c).
Proof.
  induction a as [|x a IH]; [reflexivity|].
  rewrite !str_cons. now rewrite IH.
Qed.

Lemma str_append_nil_r (a : string) : String.append a "" = a.
Proof.
  induction a as [|x a IH]; [reflexivity|].
  rewrite str_cons. now rewrite IH.
Qed.

Lemma strip_prefix_app p s : Fetcher.strip_prefix p (String.append p s) = Some s.
Proof.
  induction p as [|a p IH]; [reflexivity|].
  rewrite str_cons. cbn [Fetcher.strip_prefix]. now rewrite Ascii.eqb_refl.
Qed.

Lemma strip_prefix_some p s rest :
  Fetcher.strip_prefix p s = Some rest -> s = String.append p rest.
Proof.
  revert s. induction p as [|a p IH]; intros s; simpl.
  - now intros [= ->].
  - destruct s as [|b s]; [discriminate|].
    destruct (Ascii.eqb a b) eqn:E; [|discriminate].
    apply Ascii.eqb_eq in E. subst b. intros H.
    now rewrite str_cons, <- (IH s H).
Qed.

Lemma group_then_run stop trail id rest :
  id <> "" -> no_char stop id = true ->
  String.prefix trail (String stop rest) = true ->
  Fetcher.group_then stop trail (String.append id (String stop rest)) = Some id.
Proof.
  intros Hne Hno Htrail. induction id as [|a id IH]; [now elim Hne|].
  simpl in Hno. apply andb_prop in Hno as [Ha Hno].
  apply negb_true_iff in Ha.
  rewrite str_cons. cbn [Fetcher.group_then]. rewrite Ha.
  destruct id as [|b id].
  - rewrite str_nil. cbn [Fetcher.group_then]. rewrite Ascii.eqb_refl.
    now rewrite Htrail.
  - rewrite IH; [reflexivity|discriminate|exact Hno].
Qed.

Lemma group_then_all stop id :
  id <> "" -> no_char stop id = true ->
  Fetcher.group_then stop "" id = Some id.
Proof.
  intros Hne Hno. induction id as [|a id IH]; [now elim Hne|].
  simpl in Hno. apply andb_prop in Hno as [Ha Hno].
  apply negb_true_iff in Ha.
  cbn [Fetcher.group_then]. rewrite Ha.
  destruct id as [|b id].
  - reflexivity.
  - rewrite IH; [reflexivity|discriminate|exact Hno].
Qed.

Lemma group_then_some stop trail s g :
  Fetcher.group_then stop trail s = Some g ->
  g <> "" /\ no_char stop g = true /\ exists post, s = String.append g post.
Proof.
  revert g. induction s as [|a s IH]; intros g; simpl; [discriminate|].
  destruct (Ascii.eqb a stop) eqn:Ha; [discriminate|].
  destruct (Fetcher.group_then stop trail s) as [g'|] eqn:Hg.
  - intros [= <-]. destruct (IH g' eq_refl) as (_ & Hno & post & Hpost).
    split; [discriminate|]. split.
    + simpl. now rewrite Ha, Hno.
    + exists post. now rewrite str_cons, <- Hpost.
  - destruct (String.prefix trail s); [|discriminate].
    intros [= <-]. split; [discriminate|]. split.
    + simpl. now rewrite Ha.
    + now exists s.
Qed.

Lemma re_search_some p s g :
  Fetcher.re_search p s = Some g ->
  g <> "" /\ exists pre post, s = String.append pre (String.append g post).
Proof.
  induction s as [|a s IH]; simpl.
  - unfold Fetcher.match_at.
    destruct (Fetcher.strip_prefix (Fetcher.lead p) "") as [rest|] eqn:Hs;
      [|discriminate].
    destruct (Fetcher.group_then _ _ rest) as [g'|] eqn:Hg; [|discriminate].
    intros [= <-]. destruct (group_then_some _ _ _ _ Hg) as (Hne & _ & post & ->).
    split; [exact Hne|]. exists (Fetcher.lead p), post.
    now apply strip_prefix_some.
  - unfold Fetcher.match_at at 1.
    destruct (Fetcher.strip_prefix (Fetcher.lead p) (String a s)) as [rest|] eqn:Hs.
    + destruct (Fetcher.group_then _ _ rest) as [g'|] eqn:Hg.
      * intros [= <-]. destruct (group_then_some _ _ _ _ Hg) as (Hne & _ & post & ->).
        split; [exact Hne|]. exists (Fetcher.lead p), post.
        now apply strip_prefix_some.
      * intros H. destruct (IH H) as (Hne & pre & post & Hs').
        split; [exact Hne|]. exists (String a pre), post.
        now rewrite str_cons, <- Hs'.
    + intros H. destruct (IH H) as (Hne & pre & post & Hs').
      split; [exact Hne|]. exists (String a pre), post.
      now rewrite str_cons, <- Hs'.
Qed.

Lemma download_url_of_match url id :
  Fetcher.extract_drive_file_id url = Some id ->
  id <> "" /\ (exists pre post, url = String.append pre (String.append id post))
  /\ Fetcher.download_url_of url = Fetcher.build_drive_download_url id.
Proof.
  intros H.
  assert (Hpart : id <> ""
                  /\ exists pre post, url = String.append pre (String.append id post)).
  { unfold Fetcher.extract_drive_file_id, Fetcher.patterns in H.
    cbn [Fetcher.first_match] in H.
    repeat match type of H with
           | match Fetcher.re_search ?p url with _ => _ end = _ =>
               let E := fresh "E" in
               destruct (Fetcher.re_search p url) eqn:E;
               [injection H as ->; exact (re_search_some _ _ _ E)|]
           end.
    discriminate. }
  destruct Hpart as (Hne & Hsub). split; [exact Hne|]. split; [exact Hsub|].
  unfold Fetcher.download_url_of. rewrite H. unfold Fetcher.truthy_opt.
  apply String.eqb_neq in Hne. now rewrite Hne.
Qed.

(** X15. Whatever URL is given, an identifier that [extract_drive_file_id]
    finds is a non-empty piece of that URL, so [download_file] turns every
    URL with a match into the direct download URL of that identifier and
    uses every other URL as it is. *)
Theorem X15_extracted_id_is_part_of_url url :
  (forall id,
      Fetcher.extract_drive_file_id url = Some id ->
      id <> ""
      /\ (exists pre post, url = String.append pre (String.append id post))
      /\ Fetcher.download_url_of url = Fetcher.build_drive_download_url id)
  /\ (Fetcher.extract_drive_file_id url = None ->
      Fetcher.download_url_of url = url).
Proof.
  split.
  - intros id. apply download_url_of_match.
  - intros H. unfold Fetcher.download_url_of. now rewrite H.
Qed.

Lemma X15_extracted_id_is_part_of_url_witness :
  Fetcher.download_url_of "https://host.example/get?id=77&x=1"
  = Fetcher.build_drive_download_url "77".
Proof.
  apply (proj1 (X15_extracted_id_is_part_of_url "https://host.example/get?id=77&x=1")).
  reflexivity.
Defined.

(** X16. Every share link of the form
    [https://drive.google.com/file/d/<id>/<anything>], with a non-empty
    [<id>] free of slashes, gives the identifier [<id>] and the download
    URL [https://drive.google.com/uc?export=download&id=<id>]. *)
Theorem X16_share_link id rest :
  id <> "" -> no_char "/" id = true ->
  let url := String.append "https://drive.google.com/file/d/"
               (String.append id (String "/" rest)) in
  Fetcher.extract_drive_file_id url = Some id
  /\ Fetcher.download_url_of url
     = String.append "https://drive.google.com/uc?export=download&id=" id.
Proof.
  intros Hne Hno url.
  assert (H : Fetcher.extract_drive_file_id url = Some id).
  { unfold Fetcher.extract_drive_file_id, Fetcher.patterns.
    cbn [Fetcher.first_match].
    assert (Hm : Fetcher.match_at
                   {| Fetcher.lead := "https://drive.google.com/file/d/";
                      Fetcher.stop := "/"; Fetcher.trail := "/" |} url = Some id).
    { unfold Fetcher.match_at, url. cbn [Fetcher.lead Fetcher.stop Fetcher.trail].
      rewrite strip_prefix_app.
      apply group_then_run; [exact Hne|exact Hno|destruct rest; reflexivity]. }
    destruct url; cbn [Fetcher.re_search]; now rewrite Hm. }
  split; [exact H|].
  now apply download_url_of_match.
Qed.

Lemma X16_share_link_witness :
  Fetcher.extract_drive_file_id
    "https://drive.google.com/file/d/1a2B_c-9/view?usp=sharing"
  = Some "1a2B_c-9".
Proof.
  refine (proj1 (X16_share_link "1a2B_c-9" "view?usp=sharing" _ eq_refl)).
  discriminate.
Defined.

Lemma no_char_app c a b :
  no_char c (String.append a b) = no_char c a && no_char c b.
Proof.
  induction a as [|x a IH]; [reflexivity|].
  rewrite str_cons. simpl. rewrite IH. now rewrite andb_assoc.
Qed.

Lemma re_search_share_link_none s :
  no_char "/" s = true ->
  Fetcher.re_search
    {| Fetcher.lead := "https://drive.google.com/file/d/"; Fetcher.stop := "/";
       Fetcher.trail := "/" |} s = None.
Proof.
  assert (Hat : forall t, no_char "/" t = true ->
                  Fetcher.match_at
                    {| Fetcher.lead := "https://drive.google.com/file/d/";
                       Fetcher.stop := "/"; Fetcher.trail := "/" |} t = None).
  { intros t Ht. unfold Fetcher.match_at. cbn [Fetcher.lead].
    destruct (Fetcher.strip_prefix "https://drive.google.com/file/d/" t)
      as [rest|] eqn:E; [|reflexivity].
    apply strip_prefix_some in E. subst t.
    rewrite no_char_app in Ht. discriminate. }
  induction s as [|a s IH]; intros H.
  - cbn [Fetcher.re_search]. now rewrite Hat.
  - cbn [Fetcher.re_search]. rewrite (Hat _ H).
    apply IH. simpl in H. now apply andb_prop in H as [_ H].
Qed.

(** X17. Round trip: the direct download URL built from an identifier
    gives that identifier back (the identifier non-empty and free of [/]
    and [&]), so [download_file] uses a URL that is already a direct
    download link unchanged. *)
Theorem X17_build_then_extract id :
  id <> "" -> no_char "/" id = true -> no_char "&" id = true ->
  Fetcher.extract_drive_file_id (Fetcher.build_drive_download_url id) = Some id
  /\ Fetcher.download_url_of (Fetcher.build_drive_download_url id)
     = Fetcher.build_drive_download_url id.
Proof.
  intros Hne Hslash Hamp.
  assert (H : Fetcher.extract_drive_file_id (Fetcher.build_drive_download_url id)
              = Some id).
  { unfold Fetcher.build_drive_download_url, Fetcher.extract_drive_file_id,
      Fetcher.patterns.
    rewrite !str_cons, str_nil. cbn [Fetcher.first_match].
    simpl. rewrite (re_search_share_link_none id Hslash).
    unfold Fetcher.match_at. simpl.
    now rewrite (group_then_all "&" id Hne Hamp). }
  split; [exact H|].
  now apply download_url_of_match.
Qed.

Lemma X17_build_then_extract_witness :
  Fetcher.extract_drive_file_id (Fetcher.build_drive_download_url "1a2B_c-9")
  = Some "1a2B_c-9".
Proof.
  refine (proj1 (X17_build_then_extract "1a2B_c-9" _ eq_refl eq_refl)).
  discriminate.
Defined.

Lemma with_files_same w : Fetcher.with_files (Fetcher.files w) w = w.
Proof. now destruct w. Qed.

Lemma write_chunks_run target chunks :
  forall w c0,
    Fetcher.files w !! target = Some c0 ->
    Fetcher.write_chunks target chunks w
    = (if complete chunks then Ok tt else Raise ConnectionError,
       Fetcher.with_files
         (<[target := String.append c0 (body_text chunks)]> (Fetcher.files w)) w).
Proof.
  induction chunks as [| |chunk rest IH]; intros w c0 Hc.
  - simpl. rewrite str_append_nil_r, (insert_id _ _ _ Hc). now rewrite with_files_same.
  - simpl. rewrite str_append_nil_r, (insert_id _ _ _ Hc). now rewrite with_files_same.
  - cbn [Fetcher.write_chunks complete body_text]. unfold bind.
    destruct (String.eqb chunk "") eqn:E; cbn [negb].
    + apply String.eqb_eq in E. subst chunk. unfold ret. rewrite str_nil.
      now apply IH.
    + unfold Fetcher.write. rewrite Hc.
      rewrite (IH _ (String.append c0 chunk))
        by (unfold Fetcher.with_files; cbn [Fetcher.files]; apply lookup_insert_eq).
      unfold Fetcher.with_files. cbn [Fetcher.files Fetcher.environ Fetcher.requests
                                      Fetcher.network Fetcher.writable Fetcher.stdout].
      now rewrite insert_insert_eq, str_append_assoc.
Qed.

(** What [download_file] does, by the response it obtains. *)
Lemma download_file_cases url target w :
  Fetcher.download_file url target w
  = match Fetcher.get_response (Fetcher.download_url_of url) w with
    | (Raise e, w1) => (Ok false, snd (Fetcher.print (Fetcher.Failed url target e) w1))
    | (Ok r, w1) =>
        if error_status r
        then (Ok false,
              snd (Fetcher.print
                     (Fetcher.Failed url target (HTTPError (Fetcher.status r))) w1))
        else if Fetcher.writable w1 target
        then
          let w2 :=
            Fetcher.with_files
              (<[target := body_text (Fetcher.content r)]> (Fetcher.files w1)) w1 in
          if complete (Fetcher.content r)
          then (Ok true, snd (Fetcher.print (Fetcher.Downloaded target) w2))
          else (Ok false,
                snd (Fetcher.print (Fetcher.Failed url target ConnectionError) w2))
        else (Ok false, snd (Fetcher.print (Fetcher.Failed url target OSError) w1))
    end.
Proof.
  unfold Fetcher.download_file, try_except, Fetcher.download_body, bind at 1.
  destruct (Fetcher.get_response (Fetcher.download_url_of url) w) as [[r|e] w1];
    [|reflexivity].
  unfold bind at 1, Fetcher.raise_for_status, error_status.
  destruct ((400 <=? Fetcher.status r) && (Fetcher.status r <? 600)); [reflexivity|].
  unfold ret at 1. unfold bind at 1, Fetcher.open_wb.
  destruct (Fetcher.writable w1 target); [|reflexivity].
  unfold bind at 1.
  rewrite (write_chunks_run target (Fetcher.content r) _ "")
    by (unfold Fetcher.with_files; cbn [Fetcher.files]; apply lookup_insert_eq).
  rewrite str_nil.
  unfold Fetcher.with_files. cbn [Fetcher.files Fetcher.environ Fetcher.requests
                                  Fetcher.network Fetcher.writable Fetcher.stdout].
  rewrite insert_insert_eq.
  destruct (complete (Fetcher.content r)); reflexivity.
Qed.

Lemma get_response_frame u w :
  let w1 := snd (Fetcher.get_response u w) in
  Fetcher.files w1 = Fetcher.files w
  /\ Fetcher.environ w1 = Fetcher.environ w
  /\ Fetcher.network w1 = Fetcher.network w
  /\ Fetcher.writable w1 = Fetcher.writable w
  /\ Fetcher.stdout w1 = Fetcher.stdout w
  /\ exists new,
       Fetcher.requests w1 = Fetcher.requests w ++ new
       /\ (length new = 1 \/ length new = 2)%nat
       /\ Forall (fun rq => Fetcher.req_url rq = u) new.
Proof.
  unfold Fetcher.get_response, bind, Fetcher.session_get.
  destruct (Fetcher.network w (Fetcher.requests w) _) as [|r]; simpl.
  - repeat split. eexists. split; [reflexivity|]. split; [now left|].
    repeat constructor.
  - destruct (Fetcher.find_token (Fetcher.cookies r)) as [t|]; simpl.
    + destruct (negb (String.eqb t "")); simpl.
      * destruct (Fetcher.network w _ _); simpl; repeat split;
          (eexists; split; [rewrite <- app_assoc; reflexivity|];
           split; [now right|]; repeat constructor).
      * repeat split. eexists. split; [reflexivity|]. split; [now left|].
        repeat constructor.
    + repeat split. eexists. split; [reflexivity|]. split; [now left|].
      repeat constructor.
Qed.

Lemma download_file_frame url target w :
  let w' := snd (Fetcher.download_file url target w) in
  Fetcher.environ w' = Fetcher.environ w
  /\ Fetcher.network w' = Fetcher.network w
  /\ Fetcher.writable w' = Fetcher.writable w
  /\ (forall p, p <> target -> Fetcher.files w' !! p = Fetcher.files w !! p)
  /\ (exists m, Fetcher.stdout w' = Fetcher.stdout w ++ [m] /\ m <> Fetcher.NoDatabase)
  /\ (exists new,
        Fetcher.requests w' = Fetcher.requests w ++ new
        /\ (length new = 1 \/ length new = 2)%nat
        /\ Forall (fun rq => Fetcher.req_url rq = Fetcher.download_url_of url) new).
Proof.
  intros w'.
  assert (Hreq : Fetcher.requests w'
                 = Fetcher.requests
                     (snd (Fetcher.get_response (Fetcher.download_url_of url) w)))
    by apply download_file_requests.
  destruct (get_response_frame (Fetcher.download_url_of url) w)
    as (Hf & He & Hn & Hw & Hs & Hnew).
  rewrite <- Hreq in Hnew. subst w'. clear Hreq.
  rewrite download_file_cases in *.
  destruct (Fetcher.get_response (Fetcher.download_url_of url) w) as [[r|e] w1];
    cbn [snd] in *.
  2:{ cbn. rewrite He, Hn, Hw, Hs, Hf. repeat split; try exact Hnew.
      eexists. split; [reflexivity|discriminate]. }
  destruct (error_status r).
  { cbn. rewrite He, Hn, Hw, Hs, Hf. repeat split; try exact Hnew.
    eexists. split; [reflexivity|discriminate]. }
  destruct (Fetcher.writable w1 target).
  2:{ cbn. rewrite He, Hn, Hw, Hs, Hf. repeat split; try exact Hnew.
      eexists. split; [reflexivity|discriminate]. }
  destruct (complete (Fetcher.content r)); cbn in *;
    rewrite He, Hn, Hw, Hs, Hf; repeat split; try exact Hnew;
    try (intros p Hp; now rewrite lookup_insert_ne);
    (eexists; split; [reflexivity|discriminate]).
Qed.

Lemma ensure_file_frame target url w :
  let w' := snd (Fetcher.ensure_file target url w) in
  Fetcher.environ w' = Fetcher.environ w
  /\ Fetcher.network w' = Fetcher.network w
  /\ Fetcher.writable w' = Fetcher.writable w
  /\ (forall p, p <> target -> Fetcher.files w' !! p = Fetcher.files w !! p)
  /\ (exists m, Fetcher.stdout w' = Fetcher.stdout w ++ [m] /\ m <> Fetcher.NoDatabase)
  /\ (exists new,
        Fetcher.requests w' = Fetcher.requests w ++ new
        /\ (length new <= 2)%nat
        /\ forall u, url = Some u ->
             Forall (fun rq => Fetcher.req_url rq = Fetcher.download_url_of u) new)
  /\ (Fetcher.truthy_opt url = false ->
      Fetcher.requests w' = Fetcher.requests w /\ Fetcher.files w' = Fetcher.files w).
Proof.
  intros w'. subst w'.
  unfold Fetcher.ensure_file, bind, Fetcher.exists_.
  assert (Hquiet : forall m, m <> Fetcher.NoDatabase ->
            let w' := snd (Fetcher.print m w) in
            Fetcher.environ w' = Fetcher.environ w
            /\ Fetcher.network w' = Fetcher.network w
            /\ Fetcher.writable w' = Fetcher.writable w
            /\ (forall p, p <> target -> Fetcher.files w' !! p = Fetcher.files w !! p)
            /\ (exists m, Fetcher.stdout w' = Fetcher.stdout w ++ [m]
                          /\ m <> Fetcher.NoDatabase)
            /\ (exists new,
                  Fetcher.requests w' = Fetcher.requests w ++ new
                  /\ (length new <= 2)%nat
                  /\ forall u, url = Some u ->
                       Forall (fun rq => Fetcher.req_url rq = Fetcher.download_url_of u) new)
            /\ (Fetcher.truthy_opt url = false ->
                Fetcher.requests w' = Fetcher.requests w
                /\ Fetcher.files w' = Fetcher.files w)).
  { intros m Hm. cbn. repeat split.
    - now exists m.
    - exists []. rewrite app_nil_r. repeat split; [simpl; lia|].
      intros u _. constructor. }
  destruct (Fetcher.files w !! target); [apply Hquiet; discriminate|].
  destruct url as [u|]; [|apply Hquiet; discriminate].
  destruct (negb (Fetcher.truthy_opt (Some u))) eqn:Hu;
    [apply Hquiet; discriminate|].
  destruct (download_file_frame u target w) as (He & Hn & Hw & Hf & Hs & new & Hr & Hl & Ha).
  destruct (Fetcher.download_file u target w) as [[b|e] w1]; cbn [snd ret] in *.
  - repeat split; auto.
    + exists new. repeat split; [exact Hr|lia|]. now intros u' [= <-].
    + match goal with
      | H : Fetcher.truthy_opt _ = false |- _ => rewrite H in Hu; discriminate
      end.
    + match goal with
      | H : Fetcher.truthy_opt _ = false |- _ => rewrite H in Hu; discriminate
      end.
  - repeat split; auto.
    + exists new. repeat split; [exact Hr|lia|]. now intros u' [= <-].
    + match goal with
      | H : Fetcher.truthy_opt _ = false |- _ => rewrite H in Hu; discriminate
      end.
    + match goal with
      | H : Fetcher.truthy_opt _ = false |- _ => rewrite H in Hu; discriminate
      end.
Qed.

(** X18. Once a response is obtained with a status that is no error and
    the target can be opened, the target file holds exactly the chunks
    received, in order, in place of whatever it held before; the result is
    [True] with the success line when the body came to its end, and
    [False] with the failure line when the stream broke. *)
Theorem X18_download_writes_body url target w r w1 :
  Fetcher.get_response (Fetcher.download_url_of url) w = (Ok r, w1) ->
  error_status r = false ->
  Fetcher.writable w target = true ->
  let w' := snd (Fetcher.download_file url target w) in
  fst (Fetcher.download_file url target w) = Ok (complete (Fetcher.content r))
  /\ Fetcher.files w'
     = <[target := body_text (Fetcher.content r)]> (Fetcher.files w)
  /\ Fetcher.stdout w'
     = Fetcher.stdout w
       ++ [if complete (Fetcher.content r)
           then Fetcher.Downloaded target
           else Fetcher.Failed url target ConnectionError].
Proof.
  intros Hget Herr Hwr w'. subst w'.
  destruct (get_response_frame (Fetcher.download_url_of url) w)
    as (Hf & _ & _ & Hw & Hs & _).
  rewrite download_file_cases. rewrite Hget in *. cbn [snd] in *.
  rewrite Herr, Hw, Hwr.
  destruct (complete (Fetcher.content r)); cbn; rewrite Hf, Hs; repeat split.
Qed.

Lemma X18_download_writes_body_witness :
  let w :=
    {| Fetcher.files := {["db.json" := "stale"]};
       Fetcher.environ := ∅;
       Fetcher.requests := [];
       Fetcher.network := fun _ _ =>
         Fetcher.Reply {| Fetcher.status := 200; Fetcher.cookies := [];
                          Fetcher.content := Item "first," (Item "" (Item "second" Done)) |};
       Fetcher.writable := fun _ => true;
       Fetcher.stdout := [] |} in
  Fetcher.files (snd (Fetcher.download_file "https://example.org/db.json" "db.json" w))
  = <["db.json" := "first,second"]> {["db.json" := "stale"]}.
Proof.
  intros w.
  exact (proj1 (proj2 (X18_download_writes_body "https://example.org/db.json"
                         "db.json" w _ _ eq_refl eq_refl eq_refl))).
Defined.

Lemma ensure_file_present target url w c :
  Fetcher.files w !! target = Some c ->
  Fetcher.ensure_file target url w
  = (Ok tt, snd (Fetcher.print (Fetcher.AlreadyPresent target) w)).
Proof.
  intros H. unfold Fetcher.ensure_file, bind, Fetcher.exists_. now rewrite H.
Qed.

Lemma ensure_file_keeps target url w p c :
  Fetcher.files w !! p = Some c ->
  Fetcher.files (snd (Fetcher.ensure_file target url w)) !! p = Some c.
Proof.
  intros H. destruct (String.eqb p target) eqn:E.
  - apply String.eqb_eq in E. subst p.
    now rewrite (ensure_file_present target url w c H).
  - apply String.eqb_neq in E.
    destruct (ensure_file_frame target url w) as (_ & _ & _ & Hf & _).
    now rewrite (Hf p E).
Qed.

Lemma main_run w :
  let w1 := snd (Fetcher.ensure_file Fetcher.COMPACT_DB (Some (compact_url_of w)) w) in
  let w2 := snd (Fetcher.ensure_file Fetcher.FULL_DB
                   (Fetcher.environ w !! "DATABASE_URL") w1) in
  Fetcher.main w
  = (Ok tt, if no_database w2 then snd (Fetcher.print Fetcher.NoDatabase w2) else w2).
Proof.
  intros w1 w2. subst w1 w2.
  unfold Fetcher.main, bind at 1, Fetcher.getenv.
  unfold bind at 1. unfold bind at 1. fold (compact_url_of w).
  pose proof (ensure_file_total Fetcher.COMPACT_DB (Some (compact_url_of w)) w) as H1.
  destruct (Fetcher.ensure_file Fetcher.COMPACT_DB (Some (compact_url_of w)) w)
    as [[[]|e1] w1]; simpl in H1; [|discriminate].
  unfold bind at 1. cbn [snd].
  pose proof (ensure_file_total Fetcher.FULL_DB (Fetcher.environ w !! "DATABASE_URL") w1)
    as H2.
  destruct (Fetcher.ensure_file Fetcher.FULL_DB (Fetcher.environ w !! "DATABASE_URL") w1)
    as [[[]|e2] w2]; simpl in H2; [|discriminate].
  cbn [snd]. unfold bind, Fetcher.exists_, no_database, is_some.
  destruct (negb _ && negb _); reflexivity.
Qed.

(** X19. A download whose body breaks midway leaves the part received in
    the target file; from then on the target counts as present, and
    [ensure_file] on it prints that it is there and fetches nothing. *)
Theorem X19_partial_download_counts_as_present url target w r w1 url' :
  Fetcher.get_response (Fetcher.download_url_of url) w = (Ok r, w1) ->
  error_status r = false ->
  Fetcher.writable w target = true ->
  complete (Fetcher.content r) = false ->
  let w2 := snd (Fetcher.download_file url target w) in
  fst (Fetcher.download_file url target w) = Ok false
  /\ Fetcher.files w2 !! target = Some (body_text (Fetcher.content r))
  /\ Fetcher.ensure_file target url' w2
     = (Ok tt, snd (Fetcher.print (Fetcher.AlreadyPresent target) w2)).
Proof.
  intros Hget Herr Hwr Hbroken w2.
  assert (Hfile : Fetcher.files w2 !! target = Some (body_text (Fetcher.content r))).
  { subst w2.
    destruct (get_response_frame (Fetcher.download_url_of url) w)
      as (_ & _ & _ & Hw & _).
    rewrite download_file_cases. rewrite Hget in *. cbn [snd] in *.
    rewrite Herr, Hw, Hwr, Hbroken. cbn. apply lookup_insert_eq. }
  split; [|split; [exact Hfile|now apply (ensure_file_present _ _ _ _ Hfile)]].
  destruct (get_response_frame (Fetcher.download_url_of url) w)
    as (_ & _ & _ & Hw & _).
  rewrite download_file_cases. rewrite Hget in *. cbn [snd] in *.
  now rewrite Herr, Hw, Hwr, Hbroken.
Qed.

Lemma X19_partial_download_counts_as_present_witness :
  let w :=
    {| Fetcher.files := ∅;
       Fetcher.environ := ∅;
       Fetcher.requests := [];
       Fetcher.network := fun _ _ =>
         Fetcher.Reply {| Fetcher.status := 200; Fetcher.cookies := [];
                          Fetcher.content := Item "first," Broken |};
       Fetcher.writable := fun _ => true;
       Fetcher.stdout := [] |} in
  Fetcher.files (snd (Fetcher.download_file "https://example.org/db.json" "db.json" w))
    !! "db.json"
  = Some "first,".
Proof.
  intros w.
  exact (proj1 (proj2 (X19_partial_download_counts_as_present
                         "https://example.org/db.json" "db.json" w _ _ None
                         eq_refl eq_refl eq_refl eq_refl))).
Defined.

(** X20. A download that fails before the target is opened (no response,
    an error status, or a target that cannot be opened) returns [False],
    prints the failure with its cause, and leaves every file as it was. *)
Theorem X20_early_failure_leaves_files url target w :
  let u := Fetcher.download_url_of url in
  let run := Fetcher.download_file url target w in
  (forall e w1,
      Fetcher.get_response u w = (Raise e, w1) ->
      fst run = Ok false
      /\ Fetcher.files (snd run) = Fetcher.files w
      /\ Fetcher.stdout (snd run) = Fetcher.stdout w ++ [Fetcher.Failed url target e])
  /\ (forall r w1,
        Fetcher.get_response u w = (Ok r, w1) ->
        error_status r = true ->
        fst run = Ok false
        /\ Fetcher.files (snd run) = Fetcher.files w
        /\ Fetcher.stdout (snd run)
           = Fetcher.stdout w
             ++ [Fetcher.Failed url target (HTTPError (Fetcher.status r))])
  /\ (forall r w1,
        Fetcher.get_response u w = (Ok r, w1) ->
        error_status r = false ->
        Fetcher.writable w target = false ->
        fst run = Ok false
        /\ Fetcher.files (snd run) = Fetcher.files w
        /\ Fetcher.stdout (snd run)
           = Fetcher.stdout w ++ [Fetcher.Failed url target OSError]).
Proof.
  intros u run. subst u run.
  destruct (get_response_frame (Fetcher.download_url_of url) w)
    as (Hf & _ & _ & Hw & Hs & _).
  rewrite download_file_cases.
  split; [|split].
  - intros e w1 Hget. rewrite Hget in *. cbn in *. now rewrite Hf, Hs.
  - intros r w1 Hget Herr. rewrite Hget in *. rewrite Herr. cbn in *.
    now rewrite Hf, Hs.
  - intros r w1 Hget Herr Hwr. rewrite Hget in *. cbn [snd] in *.
    rewrite Herr, Hw, Hwr. cbn. now rewrite Hf, Hs.
Qed.

Lemma X20_early_failure_leaves_files_witness :
  Fetcher.files
    (snd (Fetcher.download_file "https://example.org/db.json" "db.json" failing_world))
  = ∅.
Proof.
  exact (proj1 (proj2 (proj1 (proj2
           (X20_early_failure_leaves_files "https://example.org/db.json" "db.json"
              failing_world)) _ _ eq_refl eq_refl))).
Defined.

(** X21. [download_file] sends one request or two, never none and never
    more, each to the download URL derived from the given URL; the
    requests sent before are kept. *)
Theorem X21_download_sends_one_or_two_requests url target w :
  exists new,
    Fetcher.requests (snd (Fetcher.download_file url target w))
    = Fetcher.requests w ++ new
    /\ (length new = 1 \/ length new = 2)%nat
    /\ Forall (fun rq => Fetcher.req_url rq = Fetcher.download_url_of url) new.
Proof. apply download_file_frame. Qed.

(** X22. [ensure_file] touches the target only: every other file, the
    environment, the network and the writable paths are as before; it
    prints exactly one line; and it never changes a file that exists. *)
Theorem X22_ensure_file_frame target url w :
  let w' := snd (Fetcher.ensure_file target url w) in
  (forall p, p <> target -> Fetcher.files w' !! p = Fetcher.files w !! p)
  /\ (forall p c, Fetcher.files w !! p = Some c -> Fetcher.files w' !! p = Some c)
  /\ Fetcher.environ w' = Fetcher.environ w
  /\ Fetcher.network w' = Fetcher.network w
  /\ Fetcher.writable w' = Fetcher.writable w
  /\ (exists m, Fetcher.stdout w' = Fetcher.stdout w ++ [m]).
Proof.
  intros w'. subst w'.
  destruct (ensure_file_frame target url w) as (He & Hn & Hw & Hf & (m & Hs & _) & _).
  split; [exact Hf|]. split; [intros p c; apply ensure_file_keeps|].
  split; [exact He|]. split; [exact Hn|]. split; [exact Hw|]. now exists m.
Qed.

Lemma X22_ensure_file_frame_witness :
  let w :=
    {| Fetcher.files := {["notes.txt" := "keep"]};
       Fetcher.environ := ∅;
       Fetcher.requests := [];
       Fetcher.network := fun _ _ =>
         Fetcher.Reply {| Fetcher.status := 200; Fetcher.cookies := [];
                          Fetcher.content := Item "data" Done |};
       Fetcher.writable := fun _ => true;
       Fetcher.stdout := [] |} in
  Fetcher.files (snd (Fetcher.ensure_file "db.json" (Some "https://example.org/db.json") w))
    !! "notes.txt"
  = Some "keep".
Proof.
  intros w.
  refine (proj1 (proj2 (X22_ensure_file_frame "db.json"
                          (Some "https://example.org/db.json") w)) "notes.txt" "keep" _).
  reflexivity.
Defined.

Lemma db_paths_differ : Fetcher.FULL_DB <> Fetcher.COMPACT_DB.
Proof. discriminate. Qed.

Lemma print_frame m w :
  Fetcher.files (snd (Fetcher.print m w)) = Fetcher.files w
  /\ Fetcher.requests (snd (Fetcher.print m w)) = Fetcher.requests w
  /\ Fetcher.stdout (snd (Fetcher.print m w)) = Fetcher.stdout w ++ [m].
Proof. repeat split. Qed.

(** X23. The full database is fetched on request only: when
    [DATABASE_URL] is not set, [main] leaves the full database's path as
    it was, and every request it sends (two at most) goes to the download
    URL of the compact database. *)
Theorem X23_main_full_database_opt_in w :
  Fetcher.environ w !! "DATABASE_URL" = None ->
  Fetcher.files (snd (Fetcher.main w)) !! Fetcher.FULL_DB
  = Fetcher.files w !! Fetcher.FULL_DB
  /\ exists new,
       Fetcher.requests (snd (Fetcher.main w)) = Fetcher.requests w ++ new
       /\ (length new <= 2)%nat
       /\ Forall (fun rq => Fetcher.req_url rq
                            = Fetcher.download_url_of (compact_url_of w)) new.
Proof.
  intros Henv. rewrite main_run, Henv. cbn [snd].
  set (w1 := snd (Fetcher.ensure_file Fetcher.COMPACT_DB (Some (compact_url_of w)) w)).
  set (w2 := snd (Fetcher.ensure_file Fetcher.FULL_DB None w1)).
  destruct (ensure_file_frame Fetcher.COMPACT_DB (Some (compact_url_of w)) w)
    as (_ & _ & _ & Hf1 & _ & (new & Hr1 & Hl1 & Ha1) & _).
  destruct (ensure_file_frame Fetcher.FULL_DB None w1)
    as (_ & _ & _ & _ & _ & _ & Hq).
  destruct (Hq eq_refl) as (Hr2 & Hf2). fold w1 in Hf1, Hr1. fold w2 in Hr2, Hf2.
  assert (Hfiles : Fetcher.files w2 !! Fetcher.FULL_DB
                   = Fetcher.files w !! Fetcher.FULL_DB)
    by (rewrite Hf2; apply Hf1, db_paths_differ).
  assert (Hreqs : Fetcher.requests w2 = Fetcher.requests w ++ new)
    by (now rewrite Hr2).
  destruct (no_database w2); cbn [Fetcher.print snd Fetcher.files Fetcher.requests];
    (split; [exact Hfiles|]); exists new; (split; [exact Hreqs|]);
    (split; [exact Hl1|]); now apply Ha1.
Qed.

Lemma X23_main_full_database_opt_in_witness :
  Fetcher.files (snd (Fetcher.main failing_world)) !! Fetcher.FULL_DB
  = Fetcher.files failing_world !! Fetcher.FULL_DB.
Proof.
  exact (proj1 (X23_main_full_database_opt_in failing_world eq_refl)).
Defined.

(** X24. With both database files in place, [main] sends no request and
    changes no file; it prints that each one is present and nothing
    else. *)
Theorem X24_main_both_present w c1 c2 :
  Fetcher.files w !! Fetcher.COMPACT_DB = Some c1 ->
  Fetcher.files w !! Fetcher.FULL_DB = Some c2 ->
  fst (Fetcher.main w) = Ok tt
  /\ Fetcher.files (snd (Fetcher.main w)) = Fetcher.files w
  /\ Fetcher.requests (snd (Fetcher.main w)) = Fetcher.requests w
  /\ Fetcher.stdout (snd (Fetcher.main w))
     = Fetcher.stdout w
       ++ [Fetcher.AlreadyPresent Fetcher.COMPACT_DB;
           Fetcher.AlreadyPresent Fetcher.FULL_DB].
Proof.
  intros H1 H2. rewrite main_run.
  rewrite (ensure_file_present _ _ _ _ H1). cbn [snd].
  rewrite (ensure_file_present Fetcher.FULL_DB _ _ c2) by exact H2.
  unfold no_database. cbn [Fetcher.print snd fst Fetcher.files].
  rewrite H1. cbn. now rewrite <- app_assoc.
Qed.

Lemma X24_main_both_present_witness :
  let w :=
    {| Fetcher.files :=
         <[Fetcher.COMPACT_DB := "compact"]> {[Fetcher.FULL_DB := "full"]};
       Fetcher.environ := ∅;
       Fetcher.requests := [];
       Fetcher.network := fun _ _ => Fetcher.Unreachable;
       Fetcher.writable := fun _ => false;
       Fetcher.stdout := [] |} in
  Fetcher.requests (snd (Fetcher.main w)) = [].
Proof.
  intros w.
  refine (proj1 (proj2 (proj2 (X24_main_both_present w "compact" "full" _ _)))).
  - reflexivity.
  - reflexivity.
Defined.

(** X25. What [main] prints: one line for each of the two files, and
    after them the warning that no database is available exactly when
    neither file exists at the end. *)
Theorem X25_main_messages w :
  exists m1 m2,
    Fetcher.stdout (snd (Fetcher.main w))
    = Fetcher.stdout w ++ [m1; m2]
      ++ (if no_database (snd (Fetcher.main w)) then [Fetcher.NoDatabase] else [])
    /\ m1 <> Fetcher.NoDatabase /\ m2 <> Fetcher.NoDatabase.
Proof.
  rewrite main_run. cbn [snd].
  set (w1 := snd (Fetcher.ensure_file Fetcher.COMPACT_DB (Some (compact_url_of w)) w)).
  set (w2 := snd (Fetcher.ensure_file Fetcher.FULL_DB
                    (Fetcher.environ w !! "DATABASE_URL") w1)).
  destruct (ensure_file_frame Fetcher.COMPACT_DB (Some (compact_url_of w)) w)
    as (_ & _ & _ & _ & (m1 & Hs1 & Hm1) & _).
  destruct (ensure_file_frame Fetcher.FULL_DB (Fetcher.environ w !! "DATABASE_URL") w1)
    as (_ & _ & _ & _ & (m2 & Hs2 & Hm2) & _).
  fold w1 in Hs1. fold w2 in Hs2.
  exists m1, m2. split; [|split; assumption].
  destruct (no_database w2) eqn:Hno.
  - unfold no_database in *. cbn [Fetcher.print snd Fetcher.files Fetcher.stdout].
    rewrite Hno, Hs2, Hs1. now rewrite <- !app_assoc.
  - rewrite Hno, Hs2, Hs1. now rewrite <- !app_assoc.
Qed.

(** X26. [main] never changes a file that exists when it starts: whatever
    the environment and the network, every such file has its content at
    the end. *)
Theorem X26_main_keeps_existing_files w p c :
  Fetcher.files w !! p = Some c ->
  Fetcher.files (snd (Fetcher.main w)) !! p = Some c.
Proof.
  intros H. rewrite main_run. cbn [snd].
  assert (H2 : Fetcher.files
                 (snd (Fetcher.ensure_file Fetcher.FULL_DB
                         (Fetcher.environ w !! "DATABASE_URL")
                         (snd (Fetcher.ensure_file Fetcher.COMPACT_DB
                                 (Some (compact_url_of w)) w)))) !! p = Some c)
    by (apply ensure_file_keeps; now apply ensure_file_keeps).
  destruct (no_database _); exact H2.
Qed.

Lemma X26_main_keeps_existing_files_witness :
  let w :=
    {| Fetcher.files := {[Fetcher.FULL_DB := "full"]};
       Fetcher.environ := {["DATABASE_URL" := "https://example.org/full.json"]};
       Fetcher.requests := [];
       Fetcher.network := fun _ _ =>
         Fetcher.Reply {| Fetcher.status := 200; Fetcher.cookies := [];
                          Fetcher.content := Item "data" Done |};
       Fetcher.writable := fun _ => true;
       Fetcher.stdout := [] |} in
  Fetcher.files (snd (Fetcher.main w)) !! Fetcher.FULL_DB = Some "full".
Proof.
  intros w. apply (X26_main_keeps_existing_files w). reflexivity.
Defined.
